(** * A chess session against a remote move-suggestion service

    Shallow embedding of [chess_backend.py] (class [ChessGame]) and proofs
    about its board/screen geometry, its click-driven selection, the
    negotiation of the agent's move and the saving of the game record.

    What is modelled and how:
    - Python integers are [Z]; floor division [//] is [Z.div], [&] and [>>]
      are [Z.land] and [Z.shiftr].
    - Python text is [string]; a character is a code point below 256.
    - [self.legal_moves], a Python [set] of moves, is a [gset chess.Move].
    - The rules engine (the python-chess [Board]) is consumed through the
      interface [chess.RulesEngine]; the value types of that library
      ([Move], [Piece], square arithmetic, UCI text) are written out in
      [Module chess].
    - The outside world (HTTP service, file system, wall clock) is an
      [Env] of oracles indexed by the number of calls made so far; what the
      program did to the world is recorded in [World].
    - An exception that the source does not catch is the [Raised] outcome.
    - Drawing, asset download and console [print]s are not modelled. *)

From Stdlib Require Import ZArith Lia Bool Ascii String List.
From Stdlib Require Import Numbers.DecimalString.
From stdpp Require Import base decidable countable list strings gmap.

Local Open Scope string_scope.
Local Open Scope Z_scope.

(** ** Python text operations used by the source *)

Module py.

(** [str.isspace] on code points below 256: TAB..CR, FS..US, space, NEL
    and the no-break space. *)
Definition isspace (c : ascii) : bool :=
  let n := nat_of_ascii c in
  ((9 <=? n) && (n <=? 13) || (28 <=? n) && (n <=? 32)
   || (n =? 133) || (n =? 160))%nat.

(** [str.lower] on one code point below 256: A-Z and the Latin-1 capitals
    (all of 192..222 but the multiplication sign 215) move up by 32. *)
Definition lower_char (c : ascii) : ascii :=
  let n := nat_of_ascii c in
  if ((65 <=? n) && (n <=? 90)
      || (192 <=? n) && (n <=? 222) && negb (n =? 215))%nat
  then ascii_of_nat (n + 32) else c.

Fixpoint lower (s : string) : string :=
  match s with
  | EmptyString => EmptyString
  | String c r => String (lower_char c) (lower r)
  end.

Definition upper_char (c : ascii) : ascii :=
  let n := nat_of_ascii c in
  if ((97 <=? n) && (n <=? 122))%nat then ascii_of_nat (n - 32) else c.

Fixpoint lstrip (s : string) : string :=
  match s with
  | EmptyString => EmptyString
  | String c r => if isspace c then lstrip r else s
  end.

(** A trailing character goes exactly when it is white space and nothing
    is left of what follows it. *)
Fixpoint rstrip (s : string) : string :=
  match s with
  | EmptyString => EmptyString
  | String c r =>
      match rstrip r with
      | EmptyString => if isspace c then EmptyString else String c EmptyString
      | r' => String c r'
      end
  end.

Definition strip (s : string) : string := rstrip (lstrip s).

(** [s.split()] without arguments: the maximal runs of characters that are
    not white space, in order. [tok] is the run being read. *)
Fixpoint split_from (tok : string) (s : string) : list string :=
  match s with
  | EmptyString => match tok with EmptyString => [] | _ => [tok] end
  | String c r =>
      if isspace c
      then match tok with
           | EmptyString => split_from EmptyString r
           | _ => tok :: split_from EmptyString r
           end
      else split_from (tok +:+ String c EmptyString) r
  end.

Definition split (s : string) : list string := split_from EmptyString s.

(** [", ".join(l)] *)
Fixpoint join (sep : string) (l : list string) : string :=
  match l with
  | [] => EmptyString
  | [x] => x
  | x :: r => x +:+ sep +:+ join sep r
  end.

(** [str(n)] for an integer. *)
Definition str_int (n : Z) : string := NilEmpty.string_of_int (Z.to_int n).

(** [repr] of a list of plain ASCII strings, as an f-string prints it. *)
Definition repr_list (l : list string) : string :=
  "[" +:+ join ", " (map (fun s => "'" +:+ s +:+ "'") l) +:+ "]".

(** Outcome of a call that may raise. *)
Inductive Exn := IndexError | AttributeError | ValueError | InvalidMoveError.

Inductive Outcome (A : Type) :=
  | Returned (a : A)
  | Raised (e : Exn).
Arguments Returned {A} a.
Arguments Raised {A} e.

End py.

(** ** The value types of the rules-engine library

    These follow the python-chess definitions the source calls:
    [chess.square_file], [chess.square_rank], [chess.square], [chess.Move]
    with [uci] and [from_uci], [chess.Piece] with [symbol]. Squares are the
    integers 0..63, a1 = 0, b1 = 1, ..., h8 = 63. *)

Module chess.

Definition Square := Z.
Definition Color := bool.
Definition WHITE : Color := true.
Definition BLACK : Color := false.

Inductive PieceType := PAWN | KNIGHT | BISHOP | ROOK | QUEEN | KING.

#[global] Instance PieceType_eq_dec : EqDecision PieceType.
Proof. solve_decision. Defined.

Definition PieceType_index (pt : PieceType) : nat :=
  match pt with
  | PAWN => 1 | KNIGHT => 2 | BISHOP => 3 | ROOK => 4 | QUEEN => 5 | KING => 6
  end%nat.

Definition PieceType_of_index (n : nat) : option PieceType :=
  match n with
  | 1 => Some PAWN | 2 => Some KNIGHT | 3 => Some BISHOP
  | 4 => Some ROOK | 5 => Some QUEEN | 6 => Some KING
  | _ => None
  end%nat.

#[global] Instance PieceType_countable : Countable PieceType.
Proof.
  refine (inj_countable PieceType_index PieceType_of_index _).
  intros []; reflexivity.
Defined.

(** [PIECE_SYMBOLS[pt]] *)
Definition piece_symbol (pt : PieceType) : ascii :=
  match pt with
  | PAWN => "p" | KNIGHT => "n" | BISHOP => "b"
  | ROOK => "r" | QUEEN => "q" | KING => "k"
  end%char.

(** [PIECE_SYMBOLS.index(c)], [None] when it raises [ValueError]. *)
Definition piece_type_of_symbol (c : ascii) : option PieceType :=
  find (fun pt => Ascii.eqb (piece_symbol pt) c)
       [PAWN; KNIGHT; BISHOP; ROOK; QUEEN; KING].

Record Piece := { piece_type : PieceType; color : Color }.

(** [Piece.symbol()], which is also [str(piece)]: upper case for White. *)
Definition symbol (p : Piece) : string :=
  let s := piece_symbol (piece_type p) in
  String (if color p then py.upper_char s else s) EmptyString.

Definition square_file (sq : Square) : Z := Z.land sq 7.
Definition square_rank (sq : Square) : Z := Z.shiftr sq 3.
Definition square (file_index rank_index : Z) : Square :=
  rank_index * 8 + file_index.

Definition FILE_NAMES : list string := ["a"; "b"; "c"; "d"; "e"; "f"; "g"; "h"].
Definition RANK_NAMES : list string := ["1"; "2"; "3"; "4"; "5"; "6"; "7"; "8"].

(** [[f + r for r in RANK_NAMES for f in FILE_NAMES]] *)
Definition SQUARE_NAMES : list string :=
  flat_map (fun r => map (fun f => f +:+ r) FILE_NAMES) RANK_NAMES.

(** [SQUARE_NAMES[sq]] for a square of the board (0..63). *)
Definition square_name (sq : Square) : string :=
  nth (Z.to_nat sq) SQUARE_NAMES EmptyString.

(** [SQUARE_NAMES.index(name)], [None] when it raises [ValueError]. *)
Fixpoint index_from (i : Z) (name : string) (l : list string) : option Z :=
  match l with
  | [] => None
  | x :: r => if String.eqb x name then Some i else index_from (i + 1) name r
  end.

Definition parse_square (name : string) : option Square :=
  index_from 0 name SQUARE_NAMES.

(** The [Move] dataclass; equality is field by field. [drop] is only set
    in drop variants of chess and stays [None] in this program. *)
Record Move := {
  from_square : Square;
  to_square : Square;
  promotion : option PieceType;
  drop : option PieceType
}.

#[global] Instance Move_eq_dec : EqDecision Move.
Proof. solve_decision. Defined.

#[global] Instance Move_countable : Countable Move.
Proof.
  refine (inj_countable'
            (fun m => (from_square m, to_square m, promotion m, drop m))
            (fun t => match t with (f, t, p, d) => Build_Move f t p d end) _).
  intros []; reflexivity.
Defined.

(** [chess.Move(a, b)]: no promotion piece, no drop. *)
Definition Move_of (a b : Square) : Move :=
  {| from_square := a; to_square := b; promotion := None; drop := None |}.

(** [Move.null()] *)
Definition null : Move := Move_of 0 0.

(** [bool(move)] *)
Definition Move_bool (m : Move) : bool :=
  negb (Z.eqb (from_square m) 0) || negb (Z.eqb (to_square m) 0)
  || bool_decide (is_Some (promotion m)) || bool_decide (is_Some (drop m)).

(** [Move.uci()] *)
Definition uci (m : Move) : string :=
  match drop m with
  | Some d =>
      String (py.upper_char (piece_symbol d)) EmptyString +:+ "@"
      +:+ square_name (to_square m)
  | None =>
      match promotion m with
      | Some p =>
          square_name (from_square m) +:+ square_name (to_square m)
          +:+ String (piece_symbol p) EmptyString
      | None =>
          if Move_bool m
          then square_name (from_square m) +:+ square_name (to_square m)
          else "0000"
      end
  end.

(** [s[i:j]] on text. *)
Definition slice (i j : nat) (s : string) : string :=
  String.substring i (j - i) s.

(** [Move.from_uci(uci)]; [None] stands for [InvalidMoveError]. *)
Definition from_uci (u : string) : option Move :=
  let n := String.length u in
  if String.eqb u "0000" then Some null
  else if (n =? 4)%nat && bool_decide (String.get 1 u = Some "@"%char) then
    match String.get 0 u with
    | Some c0 =>
        match piece_type_of_symbol (py.lower_char c0),
              parse_square (slice 2 n u) with
        | Some d, Some sq =>
            Some {| from_square := sq; to_square := sq;
                    promotion := None; drop := Some d |}
        | _, _ => None
        end
    | None => None
    end
  else if (4 <=? n)%nat && (n <=? 5)%nat then
    match parse_square (slice 0 2 u), parse_square (slice 2 4 u) with
    | Some a, Some b =>
        let build p :=
          if Z.eqb a b then None
          else Some {| from_square := a; to_square := b;
                       promotion := p; drop := None |} in
        if (n =? 5)%nat then
          match String.get 4 u with
          | Some c =>
              match piece_type_of_symbol c with
              | Some p => build (Some p)
              | None => None
              end
          | None => None
          end
        else build None
    | _, _ => None
    end
  else None.

(** The rules engine as the program consumes it: the python-chess [Board].
    [from_fen] is [chess.Board(fen)], [None] when it raises [ValueError];
    [initial] is [chess.Board()]; [push] applies a move without any check
    of its own; [x in board.legal_moves] is membership in [legal_moves]. *)
Class RulesEngine (Board : Type) := {
  initial : Board;
  from_fen : string -> option Board;
  fen : Board -> string;
  turn : Board -> Color;
  piece_at : Board -> Square -> option Piece;
  legal_moves : Board -> list Move;
  push : Board -> Move -> Board;
  is_game_over : Board -> bool;
  result : Board -> string
}.

End chess.

(** ** The window system and the HTTP library, as far as the source uses them *)

Module pygame.

Inductive Event :=
  | QUIT
  | MOUSEBUTTONDOWN (button : Z) (pos : Z * Z)
  | MOUSEBUTTONUP (button : Z) (pos : Z * Z)
  | MOUSEMOTION (pos : Z * Z)
  | OTHER.

End pygame.

Module requests.

(** What [requests.post] is called with. *)
Record Request := {
  url : string;
  content_type : string;
  model : string;
  prompt : string;
  stream : bool;
  temperature : string;
  timeout : Z
}.

(** The value stored under the key ["response"] of the JSON object. *)
Inductive Field :=
  | Missing
  | Text (s : string)
  | NotText.

(** What [response.json()] does: it raises a JSON decode error, yields an
    object, or yields a JSON value that is not an object. *)
Inductive Body :=
  | InvalidJson (err : string)
  | JsonObject (response : Field)
  | JsonOther.

(** [RequestException] covers connection errors and the timeout. *)
Inductive PostResult :=
  | RequestException (err : string)
  | Response (status_code : Z) (body : Body).

End requests.

(** ** The world outside the process *)

Inductive Level := INFO | ERROR | CRITICAL.

(** The PGN game tree. The source only ever extends the node it added
    last, so the tree is one line of moves. *)
Record Game := {
  headers : list (string * string);
  mainline : list chess.Move
}.

(** Oracles: the answer to the n-th [requests.post], the clock reading
    [strftime('%Y%m%d_%H%M%S')] at the n-th [save_game], and whether the
    n-th [save_game] hits an [IOError] (with its text). *)
Record Env := {
  post : nat -> requests.Request -> requests.PostResult;
  now : nat -> string;
  io_error : nat -> option string
}.

(** What the process has done so far: requests sent, files written (name
    and content, one entry per completed write), number of [save_game]
    calls, and the log. *)
Record World := {
  sent : list requests.Request;
  written : list (string * Game);
  saves : nat;
  log : list (Level * string)
}.

Definition fresh_world : World :=
  {| sent := []; written := []; saves := 0; log := [] |}.

Definition logging (lvl : Level) (msg : string) (w : World) : World :=
  {| sent := sent w; written := written w; saves := saves w;
     log := log w ++ [(lvl, msg)] |}.

(** Pygame setup *)
Definition WIDTH : Z := 480.
Definition HEIGHT : Z := 480.
Definition SQUARE_SIZE : Z := WIDTH / 8.

(** ** The class [ChessGame] *)

Section Program.

Context {Board : Type} {E : chess.RulesEngine Board}.
Variable env : Env.

(** The fields of [self]. [self.node] is the last node of [game]. *)
Record ChessGame := {
  board : Board;
  game : Game;
  selected_square : option chess.Square;
  dragging : bool;
  drag_piece : option string;
  drag_pos : option (Z * Z);
  legal_moves : gset chess.Move
}.

Definition State : Type := ChessGame * World.

(** [__init__], with [today] the date [strftime("%Y.%m.%d")]. The PGN
    headers are the seven standard tags with Date, White and Black set. *)
Definition init (today : string) : ChessGame :=
  {| board := chess.initial;
     game := {| headers := [("Event", "?"); ("Site", "?"); ("Date", today);
                            ("Round", "?"); ("White", "Player");
                            ("Black", "AI"); ("Result", "*")];
                mainline := [] |};
     selected_square := None;
     dragging := false;
     drag_piece := None;
     drag_pos := None;
     legal_moves := ∅ |}.

Definition square_to_pos (sq : chess.Square) : Z * Z :=
  let file_idx := chess.square_file sq in
  let rank_idx := 7 - chess.square_rank sq in
  (file_idx * SQUARE_SIZE, rank_idx * SQUARE_SIZE).

Definition pos_to_square (pos : Z * Z) : option chess.Square :=
  let '(x, y) := pos in
  let file_idx := x / SQUARE_SIZE in
  let rank_idx := 7 - (y / SQUARE_SIZE) in
  if (0 <=? file_idx) && (file_idx <=? 7) && (0 <=? rank_idx) && (rank_idx <=? 7)
  then Some (chess.square file_idx rank_idx)
  else None.

(** [save_game]: the whole game is written under a name made from the
    clock; an [IOError] is logged and swallowed. [self] is not touched. *)
Definition save_game (g : ChessGame) (w : World) : World :=
  let n := saves w in
  match io_error env n with
  | None =>
      let filename := "games/game_" +:+ now env n +:+ ".pgn" in
      logging INFO ("Game saved to " +:+ filename)
        {| sent := sent w; written := written w ++ [(filename, game g)];
           saves := S n; log := log w |}
  | Some e =>
      logging ERROR ("Failed to save game: " +:+ e)
        {| sent := sent w; written := written w; saves := S n; log := log w |}
  end.

Definition make_move (move : chess.Move) (st : State) : State :=
  let '(g, w) := st in
  let g' := {| board := chess.push (board g) move;
               game := {| headers := headers (game g);
                          mainline := mainline (game g) ++ [move] |};
               selected_square := selected_square g;
               dragging := dragging g;
               drag_piece := drag_piece g;
               drag_pos := drag_pos g;
               legal_moves := legal_moves g |} in
  (g', save_game g' w).

(** [handle_click]; [cursor] is what [pygame.mouse.get_pos()] returns. *)
Definition handle_click (cursor pos : Z * Z) (st : State) : State :=
  let '(g, w) := st in
  match pos_to_square pos with
  | None => st
  | Some sq =>
      match selected_square g with
      | None =>
          match chess.piece_at (board g) sq with
          | Some piece =>
              if Bool.eqb (chess.color piece)
                          (Bool.eqb (chess.turn (board g)) chess.WHITE)
              then ({| board := board g;
                       game := game g;
                       selected_square := Some sq;
                       dragging := true;
                       drag_piece := Some (chess.symbol piece);
                       drag_pos := Some cursor;
                       legal_moves :=
                         list_to_set
                           (filter (fun m => chess.from_square m = sq)
                                   (chess.legal_moves (board g))) |}, w)
              else st
          | None => st
          end
      | Some sel =>
          let move := chess.Move_of sel sq in
          let '(g1, w1) :=
            if bool_decide (move ∈ legal_moves g) then make_move move st
            else st in
          ({| board := board g1;
              game := game g1;
              selected_square := None;
              dragging := false;
              drag_piece := None;
              drag_pos := drag_pos g1;
              legal_moves := ∅ |}, w1)
      end
  end.

(** The f-string prompt of [get_ai_move]. *)
Definition prompt_of (fen : string) (legal : list string) : string :=
  "Current chess position FEN: " +:+ fen +:+ "

"
  +:+ "Legal moves in UCI format: " +:+ py.join ", " legal +:+ "

"
  +:+ "You are a chess engine. Choose one move from the legal moves list above.
"
  +:+ "Rules:
"
  +:+ "1. Respond ONLY with a single UCI move from the legal moves list
"
  +:+ "2. Do not add any explanation or analysis
"
  +:+ "3. The move must be exactly as shown in the legal moves list
"
  +:+ "4. Do not make up moves - use only moves from the provided list

"
  +:+ "Choose one move:".

Definition request_of (fen : string) (legal : list string) : requests.Request :=
  {| requests.url := "http://localhost:11434/api/generate";
     requests.content_type := "application/json";
     requests.model := "llama3.2";
     requests.prompt := prompt_of fen legal;
     requests.stream := false;
     requests.temperature := "0.1";
     requests.timeout := 10 |}.

Definition record_request (r : requests.Request) (w : World) : World :=
  {| sent := sent w ++ [r]; written := written w; saves := saves w;
     log := log w |}.

(** The text the source reads from the JSON object:
    [.get("response", "")], [None] when the stored value has no [strip]. *)
Definition response_text (f : requests.Field) : option string :=
  match f with
  | requests.Missing => Some EmptyString
  | requests.Text s => Some s
  | requests.NotText => None
  end.

(** The part of [get_ai_move] after a status 200 answer, inside [try]. *)
Definition read_answer (legal : list string) (body : requests.Body)
    (w : World) : py.Outcome (option string) * World :=
  match body with
  | requests.InvalidJson e =>
      (py.Returned None, logging ERROR ("AI move request failed: " +:+ e) w)
  | requests.JsonOther => (py.Raised py.AttributeError, w)
  | requests.JsonObject f =>
      match response_text f with
      | None => (py.Raised py.AttributeError, w)
      | Some raw =>
          match py.split (py.lower (py.strip raw)) with
          | [] => (py.Raised py.IndexError, w)
          | move :: _ =>
              let w1 := logging INFO ("Raw AI response: " +:+ move) w in
              if bool_decide (move ∈ legal)
              then (py.Returned (Some move), w1)
              else (py.Returned None,
                    logging ERROR
                      ("AI suggested move " +:+ move
                       +:+ " is not in legal moves list: "
                       +:+ py.repr_list legal) w1)
          end
      end
  end.

(** [get_ai_move(fen)]; the [except] clause names [RequestException],
    [KeyError] and [JSONDecodeError] only. *)
Definition get_ai_move (fen : string) (w : World)
    : py.Outcome (option string) * World :=
  match chess.from_fen fen with
  | None => (py.Raised py.ValueError, w)
  | Some b =>
      let legal := map chess.uci (chess.legal_moves b) in
      match legal with
      | [] => (py.Returned None, w)
      | _ =>
          let req := request_of fen legal in
          let w1 := record_request req w in
          match post env (length (sent w)) req with
          | requests.RequestException e =>
              (py.Returned None,
               logging ERROR ("AI move request failed: " +:+ e) w1)
          | requests.Response status_code body =>
              if negb (status_code =? 200)
              then (py.Returned None,
                    logging ERROR
                      ("API request failed with status code: "
                       +:+ py.str_int status_code) w1)
              else read_answer legal body w1
          end
      end
  end.

(** ** The main loop *)

(** One event of the [for] loop, handled with the mouse at [cursor].
    The result carries the flag [running]. *)
Definition handle_event (cursor : Z * Z) (ev : pygame.Event)
    (st : State) (running : bool) : State * bool :=
  match ev with
  | pygame.QUIT => (st, false)
  | pygame.MOUSEBUTTONDOWN button pos =>
      if button =? 1 then (handle_click cursor pos st, running)
      else (st, running)
  | pygame.MOUSEBUTTONUP button pos =>
      if (button =? 1) && dragging (fst st)
      then (handle_click cursor pos st, running)
      else (st, running)
  | pygame.MOUSEMOTION pos =>
      if dragging (fst st)
      then let '(g, w) := st in
           ({| board := board g; game := game g;
               selected_square := selected_square g;
               dragging := dragging g; drag_piece := drag_piece g;
               drag_pos := Some pos; legal_moves := legal_moves g |}, w,
            running)
      else (st, running)
  | pygame.OTHER => (st, running)
  end.

(** [for event in pygame.event.get()]: each event comes with the mouse
    position at the time it is handled. *)
Fixpoint handle_events (evs : list (pygame.Event * (Z * Z)))
    (st : State) (running : bool) : State * bool :=
  match evs with
  | [] => (st, running)
  | (ev, cursor) :: r =>
      let '(st', running') := handle_event cursor ev st running in
      handle_events r st' running'
  end.

(** How one pass through the loop body ends. *)
Inductive Control :=
  | Continue                    (* [running] still true *)
  | Finished                    (* [running] false: the loop condition ends it *)
  | Break                       (* [break] after a rejected suggestion *)
  | Uncaught (e : py.Exn).      (* an exception leaves [_main_loop] *)

(** The block under [if self.board.turn == chess.BLACK and not
    self.board.is_game_over()]. [None]: go on with the loop body. *)
Definition agent_turn (st : State) : State * option Control :=
  let '(g, w) := st in
  if Bool.eqb (chess.turn (board g)) chess.BLACK
     && negb (chess.is_game_over (board g))
  then
    let reject w' :=
      ((g, logging ERROR "AI returned an invalid move. Ending game." w'),
       Some Break) in
    match get_ai_move (chess.fen (board g)) w with
    | (py.Raised e, w1) => ((g, w1), Some (Uncaught e))
    | (py.Returned None, w1) => reject w1
    | (py.Returned (Some ai_move), w1) =>
        if String.eqb ai_move EmptyString then reject w1
        else
          match chess.from_uci ai_move with
          | None => ((g, w1), Some (Uncaught py.InvalidMoveError))
          | Some m =>
              if bool_decide (m ∈ chess.legal_moves (board g))
              then (make_move m (g, w1), None)
              else reject w1
          end
    end
  else (st, None).

(** The block under [if self.board.is_game_over()]. *)
Definition game_over_check (st : State) (running : bool) : State * bool :=
  let '(g, w) := st in
  if chess.is_game_over (board g)
  then ((g, logging INFO ("Game Over. Result: " +:+ chess.result (board g))
                    (save_game g w)), false)
  else (st, running).

(** One pass through the body of [while running]. *)
Definition frame (evs : list (pygame.Event * (Z * Z))) (st : State)
    : State * Control :=
  let '(st1, running) := handle_events evs st true in
  match agent_turn st1 with
  | (st2, Some c) => (st2, c)
  | (st2, None) =>
      let '(st3, running') := game_over_check st2 running in
      (st3, if running' then Continue else Finished)
  end.

(** [while running], over the batches of events the loop gets to see. The
    result is [Continue] when the loop is still running after them. *)
Fixpoint loop (batches : list (list (pygame.Event * (Z * Z))))
    (st : State) : State * Control :=
  match batches with
  | [] => (st, Continue)
  | evs :: r =>
      match frame evs st with
      | (st', Continue) => loop r st'
      | stop => stop
      end
  end.

Definition _main_loop (batches : list (list (pygame.Event * (Z * Z))))
    (st : State) : State * Control :=
  loop batches (fst st, logging INFO "Starting the game..." (snd st)).

End Program.

Arguments ChessGame Board : clear implicits.
Arguments State Board : clear implicits.

(** ** A transcript of the rules engine on a few positions

    The statements below hold for every rules engine. To run the program
    on concrete games, this instance tabulates what the engine answers on
    the positions those games go through: the starting position, the
    positions after 1. e4 and after 1. e4 d5, a position with a white pawn
    on a7 that can promote, and the final position of the fool's mate.
    [Outside] is any position the table does not cover. *)

Module Transcript.

Inductive Pos := Start | After_e4 | After_e4_d5 | Pawn_a7 | Fools_mate | Outside.

Definition fen_of (p : Pos) : string :=
  match p with
  | Start => "rnbqkbnr/pppppppp/8/8/8/8/PPPPPPPP/RNBQKBNR w KQkq - 0 1"
  | After_e4 => "rnbqkbnr/pppppppp/8/8/4P3/8/PPPP1PPP/RNBQKBNR b KQkq - 0 1"
  | After_e4_d5 => "rnbqkbnr/ppp1pppp/8/3p4/4P3/8/PPPP1PPP/RNBQKBNR w KQkq - 0 2"
  | Pawn_a7 => "8/P7/8/8/8/8/8/k6K w - - 0 1"
  | Fools_mate => "rnb1kbnr/pppp1ppp/8/4p3/6Pq/5P2/PPPPP2P/RNBQKBNR w KQkq - 1 3"
  | Outside => EmptyString
  end.

(** The legal moves of each position, in UCI text. *)
Definition legal_ucis (p : Pos) : list string :=
  match p with
  | Start =>
      ["g1h3"; "g1f3"; "b1c3"; "b1a3";
       "h2h3"; "g2g3"; "f2f3"; "e2e3"; "d2d3"; "c2c3"; "b2b3"; "a2a3";
       "h2h4"; "g2g4"; "f2f4"; "e2e4"; "d2d4"; "c2c4"; "b2b4"; "a2a4"]
  | After_e4 =>
      ["g8h6"; "g8f6"; "b8c6"; "b8a6";
       "h7h6"; "g7g6"; "f7f6"; "e7e6"; "d7d6"; "c7c6"; "b7b6"; "a7a6";
       "h7h5"; "g7g5"; "f7f5"; "e7e5"; "d7d5"; "c7c5"; "b7b5"; "a7a5"]
  | After_e4_d5 =>
      ["g1h3"; "g1f3"; "g1e2"; "f1a6"; "f1b5"; "f1c4"; "f1d3"; "f1e2";
       "e1e2"; "d1h5"; "d1g4"; "d1f3"; "d1e2"; "b1c3"; "b1a3";
       "e4d5"; "e4e5";
       "h2h3"; "g2g3"; "f2f3"; "d2d3"; "c2c3"; "b2b3"; "a2a3";
       "h2h4"; "g2g4"; "f2f4"; "d2d4"; "c2c4"; "b2b4"; "a2a4"]
  | Pawn_a7 =>
      ["h1h2"; "h1g2"; "h1g1"; "a7a8q"; "a7a8r"; "a7a8b"; "a7a8n"]
  | Fools_mate => []
  | Outside => []
  end.

Definition piece_of_char (c : ascii) : option chess.Piece :=
  option_map
    (fun pt => {| chess.piece_type := pt;
                  chess.color := negb (Ascii.eqb (py.lower_char c) c) |})
    (chess.piece_type_of_symbol (py.lower_char c)).

(** The piece placement field of a FEN, square by square from a8 to h1. *)
Fixpoint placement (s : string) : list (option chess.Piece) :=
  match s with
  | EmptyString => []
  | String c r =>
      let n := nat_of_ascii c in
      if (n =? 32)%nat then []
      else if (n =? 47)%nat then placement r
      else if ((49 <=? n) && (n <=? 56))%nat
           then repeat None (n - 48) ++ placement r
           else piece_of_char c :: placement r
  end.

Definition piece_on (p : Pos) (sq : chess.Square) : option chess.Piece :=
  if (0 <=? sq) && (sq <=? 63)
  then nth (Z.to_nat ((7 - chess.square_rank sq) * 8 + chess.square_file sq))
           (placement (fen_of p)) None
  else None.

Definition side_to_move (p : Pos) : chess.Color :=
  match p with
  | After_e4 => chess.BLACK
  | _ => chess.WHITE
  end.

Definition after (p : Pos) (m : chess.Move) : Pos :=
  match p with
  | Start => if bool_decide (m = chess.Move_of 12 28) then After_e4 else Outside
  | After_e4 =>
      if bool_decide (m = chess.Move_of 51 35) then After_e4_d5 else Outside
  | _ => Outside
  end.

Definition read_fen (s : string) : option Pos :=
  find (fun p => String.eqb (fen_of p) s)
       [Start; After_e4; After_e4_d5; Pawn_a7; Fools_mate].

#[global] Instance engine : chess.RulesEngine Pos := {|
  chess.initial := Start;
  chess.from_fen := read_fen;
  chess.fen := fen_of;
  chess.turn := side_to_move;
  chess.piece_at := piece_on;
  chess.legal_moves := fun p => omap chess.from_uci (legal_ucis p);
  chess.push := after;
  chess.is_game_over := fun p => match p with Fools_mate => true | _ => false end;
  chess.result := fun p => match p with Fools_mate => "0-1" | _ => "*" end
|}.

(** A world where the service gives the listed answers in turn (and times
    out afterwards), the clock stands still and the [failing]-th save and
    no other hits an I/O error. *)
Definition world (answers : list requests.PostResult) (failing : option nat)
    : Env :=
  {| post := fun n _ => nth n answers (requests.RequestException "timed out");
     now := fun _ => "20250101_120000";
     io_error := fun n => if bool_decide (failing = Some n)
                          then Some "No space left on device" else None |}.

(** The service answers with status 200 and this text. *)
Definition says (text : string) : requests.PostResult :=
  requests.Response 200 (requests.JsonObject (requests.Text text)).

(** The top-left corner of a square on the screen, as a click position. *)
Definition at_square (name : string) : Z * Z :=
  match chess.parse_square name with
  | Some sq => square_to_pos sq
  | None => (-1, -1)
  end.

Definition click (name : string) : pygame.Event * (Z * Z) :=
  (pygame.MOUSEBUTTONDOWN 1 (at_square name), at_square name).

Definition release (name : string) : pygame.Event * (Z * Z) :=
  (pygame.MOUSEBUTTONUP 1 (at_square name), at_square name).

Definition new_session : State Pos := (init "2025.01.01", fresh_world).

End Transcript.

(** ** Vocabulary of the statements *)

Section Vocabulary.

Context {Board : Type} {E : chess.RulesEngine Board}.
Variable env : Env.

(** A session with nothing selected, on a given board and record. *)
Definition idle_on (b : Board) (rec : Game) : ChessGame Board :=
  {| board := b; game := rec; selected_square := None; dragging := false;
     drag_piece := None; drag_pos := None; legal_moves := ∅ |}.

(** Nothing is selected and nothing is being dragged. *)
Definition idle (g : ChessGame Board) : Prop :=
  selected_square g = None /\ dragging g = false /\ drag_piece g = None
  /\ legal_moves g = ∅.

(** The selected square, if any, holds a piece of the side to move. *)
Definition selection_ok (g : ChessGame Board) : Prop :=
  forall s, selected_square g = Some s ->
    exists p, chess.piece_at (board g) s = Some p
              /\ chess.color p = chess.turn (board g).

(** A click that asks for a move the selection does not allow. *)
Definition rejected_attempt (st : State Board) (pos : Z * Z) : bool :=
  match selected_square (fst st), pos_to_square pos with
  | Some s, Some t => negb (bool_decide (chess.Move_of s t ∈ legal_moves (fst st)))
  | _, _ => false
  end.

(** A click that commits a move. *)
Definition commits (st : State Board) (pos : Z * Z) : bool :=
  match selected_square (fst st), pos_to_square pos with
  | Some s, Some t => bool_decide (chess.Move_of s t ∈ legal_moves (fst st))
  | _, _ => false
  end.

(** Clicks in a row, each with the mouse position at its handling. *)
Fixpoint handle_clicks (ps : list ((Z * Z) * (Z * Z))) (st : State Board)
    : State Board :=
  match ps with
  | [] => st
  | (cursor, pos) :: r => handle_clicks r (handle_click env cursor pos st)
  end.

(** None of the clicks, each taken in the state it arrives in, commits. *)
Fixpoint none_commits (ps : list ((Z * Z) * (Z * Z))) (st : State Board)
    : bool :=
  match ps with
  | [] => true
  | (cursor, pos) :: r =>
      negb (commits st pos) && none_commits r (handle_click env cursor pos st)
  end.

(** Moves applied one after the other. *)
Fixpoint make_moves (ms : list chess.Move) (st : State Board) : State Board :=
  match ms with
  | [] => st
  | m :: r => make_moves r (make_move env m st)
  end.

(** The answers of the service after which [get_ai_move] returns [None]
    for a position with the legal moves [legal]: the transport failed, the
    status is not 200, the body is not JSON, or the first word of the text
    is not one of [legal]. *)
Definition rejects (legal : list string) (r : requests.PostResult) : bool :=
  match r with
  | requests.RequestException _ => true
  | requests.Response status_code body =>
      if negb (status_code =? 200) then true
      else match body with
           | requests.InvalidJson _ => true
           | requests.JsonObject (requests.Text raw) =>
               match py.split raw with
               | tok :: _ => negb (bool_decide (py.lower tok ∈ legal))
               | [] => false
               end
           | _ => false
           end
  end.

(** The agent is to move: what the main loop tests before it asks. *)
Definition awaiting_agent (g : ChessGame Board) : bool :=
  Bool.eqb (chess.turn (board g)) chess.BLACK
  && negb (chess.is_game_over (board g)).

(** The session ends at the agent's turn and [save_game] runs exactly once
    on the way out. *)
Definition ends_with_one_save (st : State Board) : Prop :=
  snd (agent_turn env st) = Some Break
  /\ saves (snd (fst (agent_turn env st))) = S (saves (snd st)).

(** Every move of the line is legal in the position it is played in. *)
Fixpoint legal_line (b : Board) (ms : list chess.Move) : bool :=
  match ms with
  | [] => true
  | m :: r => bool_decide (m ∈ chess.legal_moves b)
              && legal_line (chess.push b m) r
  end.

End Vocabulary.

(** The candidate move in the words of the specification: the first
    white-space delimited token of the response, lower-cased. *)
Definition first_token_lowered (raw : string) : option string :=
  option_map py.lower (head (py.split raw)).

(** ** Further vocabulary *)

Section FurtherVocabulary.

Context {Board : Type} {E : chess.RulesEngine Board}.

(** The selection's moves are legal moves of the board as it is now. *)
Definition selection_fresh (g : ChessGame Board) : Prop :=
  forall m, m ∈ legal_moves g -> m ∈ chess.legal_moves (board g).

(** The fields that go with a selection agree with it: while a square is
    selected the piece is dragged and every move kept starts on that
    square; while none is, nothing is dragged and no move is kept. *)
Definition selection_coherent (g : ChessGame Board) : Prop :=
  match selected_square g with
  | Some s => dragging g = true
              /\ (exists p, chess.piece_at (board g) s = Some p
                            /\ drag_piece g = Some (chess.symbol p))
              /\ forall m, m ∈ legal_moves g -> chess.from_square m = s
  | None => dragging g = false /\ drag_piece g = None /\ legal_moves g = ∅
  end.

(** The board after the moves [ms], pushed one after the other. *)
Definition pushes (b : Board) (ms : list chess.Move) : Board :=
  fold_left chess.push ms b.


Definition is_quit (ev : pygame.Event) : bool :=
  match ev with pygame.QUIT => true | _ => false end.

(** The batch without its [QUIT] events. *)
Definition without_quit (evs : list (pygame.Event * (Z * Z)))
    : list (pygame.Event * (Z * Z)) :=
  List.filter (fun e => negb (is_quit (fst e))) evs.

End FurtherVocabulary.

(** The record of [st'] is the record of [st] with moves added at the
    end: same headers, and the old line is a beginning of the new one. *)
Definition record_extends {Board : Type} (st st' : State Board) : Prop :=
  headers (game (fst st')) = headers (game (fst st))
  /\ mainline (game (fst st)) `prefix_of` mainline (game (fst st')).

(** The text holds nothing but white space (or nothing at all). *)
Fixpoint all_space (s : string) : bool :=
  match s with
  | EmptyString => true
  | String c r => py.isspace c && all_space r
  end.

(** ** Piece images and the games folder

    [download_chess_pieces], [_load_pieces] and [_clear_games_folder] work
    on files. The disk is the map from the paths of the files to their
    contents together with the set of directories; creating a directory
    and writing a file are taken to succeed. What [requests.get] answers,
    whether [pygame.image.load] accepts a file and whether [os.listdir] and
    [os.remove] fail are oracles. An image in [self.pieces] is represented
    by the path of the file it was loaded from. *)

(** [s.endswith(suffix)] *)
Definition endswith (s suffix : string) : bool :=
  let n := String.length s in
  let k := String.length suffix in
  (k <=? n)%nat && String.eqb (String.substring (n - k) k s) suffix.

Module os.

(** [os.path.join(a, b)] on POSIX. *)
Definition path_join (a b : string) : string :=
  if String.prefix "/" b then b
  else if String.eqb a EmptyString || endswith a "/" then a +:+ b
  else a +:+ "/" +:+ b.

End os.

Record Disk := {
  files : gmap string string;
  dirs : gset string
}.

(** [os.path.exists(p)] *)
Definition path_exists (d : Disk) (p : string) : bool :=
  bool_decide (is_Some (files d !! p)) || bool_decide (p ∈ dirs d).

(** [os.makedirs(p)] *)
Definition makedirs (p : string) (d : Disk) : Disk :=
  {| files := files d; dirs := {[p]} ∪ dirs d |}.

Definition write_file (p content : string) (d : Disk) : Disk :=
  {| files := <[p := content]> (files d); dirs := dirs d |}.

(** What [requests.get] does: it raises, or answers with a status, the
    text [raise_for_status] would raise with, and the body. *)
Inductive GetResult :=
  | GetException (err : string)
  | GetResponse (status_code : Z) (http_error : string) (content : string).

(** Oracles: the answer to the n-th [requests.get] for a URL, the error
    of [pygame.image.load] on a path, of [os.listdir] on the games folder
    and of [os.remove] on a file of it (each [None] when it succeeds). *)
Record AssetEnv := {
  get : nat -> string -> GetResult;
  load_error : string -> option string;
  listdir_error : option string;
  remove_error : string -> option string
}.

Record AssetWorld := {
  disk : Disk;
  fetched : list string;
  asset_log : list (Level * string)
}.

Definition asset_logging (lvl : Level) (msg : string) (w : AssetWorld)
    : AssetWorld :=
  {| disk := disk w; fetched := fetched w;
     asset_log := asset_log w ++ [(lvl, msg)] |}.

Definition pieces : list string :=
  ["pawn"; "knight"; "bishop"; "rook"; "queen"; "king"].
Definition colors : list string := ["white"; "black"].
Definition base_url : string := "https://lichess1.org/assets/piece/cburnett/".

Definition piece_filename (color piece : string) : string :=
  color +:+ "_" +:+ piece +:+ ".png".

(** [piece[0].upper() if color == 'white' else piece[0].lower()] *)
Definition piece_char (color piece : string) : string :=
  match piece with
  | String c _ =>
      String (if String.eqb color "white" then py.upper_char c
              else py.lower_char c) EmptyString
  | EmptyString => EmptyString
  end.

Definition piece_url (color piece : string) : string :=
  base_url +:+ piece_char color piece +:+ ".svg".

Section Assets.

Variable env : AssetEnv.

(** The body of the two nested [for] loops of [download_chess_pieces]
    for one colour and piece. [Some e]: [RequestException] is logged and
    raised again. *)
Definition download_one (assets_dir color piece : string) (w : AssetWorld)
    : option string * AssetWorld :=
  let filename := piece_filename color piece in
  let filepath := os.path_join assets_dir filename in
  if path_exists (disk w) filepath then (None, w)
  else
    let url := piece_url color piece in
    let w1 := {| disk := disk w; fetched := fetched w ++ [url];
                 asset_log := asset_log w |} in
    let failed e :=
      (Some e,
       asset_logging ERROR ("Failed to download " +:+ filename +:+ ": " +:+ e)
                     w1) in
    match get env (length (fetched w)) url with
    | GetException e => failed e
    | GetResponse status_code http_error content =>
        if (400 <=? status_code) && (status_code <? 600) then failed http_error
        else (None,
              asset_logging INFO ("Downloaded " +:+ filename)
                {| disk := write_file filepath content (disk w1);
                   fetched := fetched w1; asset_log := asset_log w1 |})
    end.

Fixpoint download_all (assets_dir : string) (todo : list (string * string))
    (w : AssetWorld) : option string * AssetWorld :=
  match todo with
  | [] => (None, w)
  | (color, piece) :: r =>
      match download_one assets_dir color piece w with
      | (None, w1) => download_all assets_dir r w1
      | stop => stop
      end
  end.

(** [for color in colors: for piece in pieces] *)
Definition all_pieces : list (string * string) :=
  flat_map (fun color => List.map (fun piece => (color, piece)) pieces) colors.

(** [download_chess_pieces()], with [here] for [os.path.dirname(__file__)]. *)
Definition download_chess_pieces (here : string) (w : AssetWorld)
    : option string * AssetWorld :=
  let assets_dir := os.path_join here "assets" in
  let w0 := if path_exists (disk w) assets_dir then w
            else {| disk := makedirs assets_dir (disk w);
                    fetched := fetched w; asset_log := asset_log w |} in
  download_all assets_dir all_pieces w0.

(** The dictionary [piece_files] of [_load_pieces], in its order. *)
Definition piece_files : list (string * string) :=
  [("p", "black_pawn.png"); ("r", "black_rook.png"); ("n", "black_knight.png");
   ("b", "black_bishop.png"); ("q", "black_queen.png"); ("k", "black_king.png");
   ("P", "white_pawn.png"); ("R", "white_rook.png"); ("N", "white_knight.png");
   ("B", "white_bishop.png"); ("Q", "white_queen.png"); ("K", "white_king.png")].

(** The exceptions [_load_pieces] logs as critical and raises again. *)
Inductive LoadError :=
  | FileNotFoundError (msg : string)
  | PygameError (msg : string).

Definition load_error_text (e : LoadError) : string :=
  match e with FileNotFoundError msg => msg | PygameError msg => msg end.

(** The [for] loop of [_load_pieces] over [piece_files.items()]. *)
Fixpoint load_all (assets_dir : string) (todo : list (string * string))
    (loaded : gmap string string) (w : AssetWorld)
    : option LoadError * gmap string string * AssetWorld :=
  match todo with
  | [] => (None, loaded, w)
  | (symbol, filename) :: r =>
      let filepath := os.path_join assets_dir filename in
      if path_exists (disk w) filepath then
        match load_error env filepath with
        | Some e => (Some (PygameError e), loaded, w)
        | None => load_all assets_dir r (<[symbol := filepath]> loaded) w
        end
      else
        (Some (FileNotFoundError ("Missing piece image: " +:+ filepath)),
         loaded,
         asset_logging ERROR ("Missing piece image: " +:+ filepath) w)
  end.

(** [_load_pieces()]: the outcome, [self.pieces] and the world. *)
Definition _load_pieces (here : string) (w : AssetWorld)
    : option LoadError * gmap string string * AssetWorld :=
  let assets_dir := os.path_join here "assets" in
  let w0 := if path_exists (disk w) assets_dir then w
            else {| disk := makedirs assets_dir (disk w);
                    fetched := fetched w; asset_log := asset_log w |} in
  match load_all assets_dir piece_files ∅ w0 with
  | (Some e, loaded, w1) =>
      (Some e, loaded,
       asset_logging CRITICAL
         ("Failed to load piece images: " +:+ load_error_text e) w1)
  | done => done
  end.

(** The inner loop of [_clear_games_folder] over the names in the folder:
    the names that are left, and the log. *)
Fixpoint clear_files (names : list string) (lg : list (Level * string))
    : list string * list (Level * string) :=
  match names with
  | [] => ([], lg)
  | file :: r =>
      if endswith file ".pgn" then
        match remove_error env file with
        | None =>
            clear_files r
              (lg ++ [(INFO, "Removed previous game file: " +:+ file)])
        | Some e =>
            let '(kept, lg') :=
              clear_files r
                (lg ++ [(ERROR, "Error removing file " +:+ file +:+ ": "
                                +:+ e)]) in
            (file :: kept, lg')
        end
      else
        let '(kept, lg') := clear_files r lg in (file :: kept, lg')
  end.

(** [_clear_games_folder()] on the games folder: [None] when the folder
    does not exist, else the names in it. No exception leaves it. *)
Definition _clear_games_folder (folder : option (list string))
    (lg : list (Level * string))
    : option (list string) * list (Level * string) :=
  match folder with
  | None => (None, lg)
  | Some names =>
      match listdir_error env with
      | Some e =>
          (Some names,
           (lg ++ [(ERROR, "Error clearing games folder: " +:+ e)])%list)
      | None =>
          let '(kept, lg') := clear_files names lg in (Some kept, lg')
      end
  end.

End Assets.

(** ** Drawing the board *)

Definition WHITE : Z * Z * Z := (240, 217, 181).
Definition BROWN : Z * Z * Z := (181, 136, 99).

(** What [draw_board] puts on the screen: filled rectangles, and the
    highlight surface blitted at a position. *)
Inductive Paint :=
  | Rect (color : Z * Z * Z) (x y width height : Z)
  | Highlight (pos : Z * Z).

Definition range8 : list Z := [0; 1; 2; 3; 4; 5; 6; 7].

Definition draw_board {Board : Type} (g : ChessGame Board) : list Paint :=
  (flat_map
     (fun row =>
        List.map
          (fun col =>
             Rect (if (row + col) mod 2 =? 0 then WHITE else BROWN)
                  (col * SQUARE_SIZE) (row * SQUARE_SIZE)
                  SQUARE_SIZE SQUARE_SIZE)
          range8)
     range8
   ++ match selected_square g with
      | Some sel =>
          List.map (fun m => Highlight (square_to_pos (chess.to_square m)))
            (List.filter (fun m => chess.from_square m =? sel)
                         (elements (legal_moves g)))
      | None => []
      end)%list.

#[global] Instance Paint_eq_dec : EqDecision Paint.
Proof. solve_decision. Defined.

(** The path [download_chess_pieces] and [_load_pieces] use for a file of
    the assets folder next to the program. *)
Definition asset_path (here filename : string) : string :=
  os.path_join (os.path_join here "assets") filename.

(** The name, inside the games folder, of the file [save_game] writes
    at clock reading [stamp]. *)
Definition game_file_name (stamp : string) : string :=
  "game_" +:+ stamp +:+ ".pgn".

(** A server that answers every URL with status 200 and a body made from
    the URL, image loading and file removal that never fail, and an empty
    disk: a world to run the file functions in. *)
Module AssetsExample.

Definition serve (url : string) : GetResult :=
  GetResponse 200 EmptyString ("<svg " +:+ url +:+ ">").

Definition env : AssetEnv :=
  {| get := fun _ url => serve url;
     load_error := fun _ => None;
     listdir_error := None;
     remove_error := fun _ => None |}.

Definition empty_world : AssetWorld :=
  {| disk := {| files := ∅; dirs := ∅ |}; fetched := []; asset_log := [] |}.

(** The world after a first download next to a program in the current
    directory. *)
Definition stocked_world : AssetWorld :=
  snd (download_chess_pieces env EmptyString empty_world).

End AssetsExample.

(** * Properties *)

(** ** Sanity checks of the library model *)

Example uci_e2e4 : chess.uci (chess.Move_of 12 28) = "e2e4".
Proof. reflexivity. Qed.

Example uci_promotion :
  chess.uci {| chess.from_square := 48; chess.to_square := 56;
               chess.promotion := Some chess.QUEEN; chess.drop := None |}
  = "a7a8q".
Proof. reflexivity. Qed.

Example from_uci_e7e5 : chess.from_uci "e7e5" = Some (chess.Move_of 52 36).
Proof. reflexivity. Qed.

Example from_uci_same_square : chess.from_uci "e2e2" = None.
Proof. reflexivity. Qed.

Example split_example :
  py.split (py.lower (py.strip "  E2E4 is best ")) = ["e2e4"; "is"; "best"].
Proof. reflexivity. Qed.

Example fools_mate_has_no_moves :
  chess.legal_moves Transcript.Fools_mate = [].
Proof. reflexivity. Qed.

Example start_has_twenty_moves :
  length (chess.legal_moves Transcript.Start) = 20%nat.
Proof. reflexivity. Qed.

(** ** Text *)

Lemma isspace_lower_char c : py.isspace (py.lower_char c) = py.isspace c.
Proof. destruct c as [[] [] [] [] [] [] [] []]; reflexivity. Qed.

Lemma lower_app s t : py.lower (s +:+ t) = py.lower s +:+ py.lower t.
Proof. induction s as [|c s IH]; simpl; [reflexivity | now rewrite IH]. Qed.

Lemma split_from_lower tok s :
  py.split_from (py.lower tok) (py.lower s)
  = map py.lower (py.split_from tok s).
Proof.
  revert tok. induction s as [|c s IH]; intros tok; simpl.
  - destruct tok; reflexivity.
  - rewrite isspace_lower_char. destruct (py.isspace c).
    + destruct tok; simpl; [apply (IH EmptyString) | f_equal; apply (IH EmptyString)].
    + rewrite <- IH, lower_app. reflexivity.
Qed.

Lemma split_lstrip s : py.split (py.lstrip s) = py.split s.
Proof.
  unfold py.split. induction s as [|c s IH]; simpl; [reflexivity|].
  destruct (py.isspace c) eqn:Hc; [exact IH|]. simpl. now rewrite Hc.
Qed.

Lemma split_from_rstrip tok s :
  py.split_from tok (py.rstrip s) = py.split_from tok s.
Proof.
  revert tok. induction s as [|c s IH]; intros tok; simpl; [reflexivity|].
  destruct (py.rstrip s) as [|c' s'] eqn:Hr.
  - destruct (py.isspace c) eqn:Hc; simpl.
    + rewrite <- (IH EmptyString). simpl. destruct tok; reflexivity.
    + rewrite Hc. now rewrite <- IH.
  - simpl. destruct (py.isspace c); rewrite <- !IH; reflexivity.
Qed.

(** The source strips and lower-cases the whole text before it splits;
    that yields the tokens of the text, each lower-cased. *)
Lemma split_lower_strip raw :
  py.split (py.lower (py.strip raw)) = map py.lower (py.split raw).
Proof.
  unfold py.split at 1.
  change EmptyString with (py.lower EmptyString) at 1.
  rewrite split_from_lower. f_equal. unfold py.strip.
  rewrite split_from_rstrip. apply split_lstrip.
Qed.

Lemma candidate_is_first_token_lowered raw :
  head (py.split (py.lower (py.strip raw))) = first_token_lowered raw.
Proof.
  rewrite split_lower_strip. unfold first_token_lowered.
  now destruct (py.split raw).
Qed.

(** ** Board and screen *)

Lemma square_file_rank sq :
  chess.square_file sq = sq mod 8 /\ chess.square_rank sq = sq / 8.
Proof.
  unfold chess.square_file, chess.square_rank. split.
  - change 7 with (Z.ones 3). rewrite Z.land_ones by lia. reflexivity.
  - rewrite Z.shiftr_div_pow2 by lia. reflexivity.
Qed.

(** C9: for every square of the board, mapping it to its screen position
    and that position back to a square gives the square again. *)
Theorem pos_to_square_square_to_pos (sq : chess.Square) :
  0 <= sq <= 63 -> pos_to_square (square_to_pos sq) = Some sq.
Proof.
  intros Hsq. unfold pos_to_square, square_to_pos.
  destruct (square_file_rank sq) as [-> ->].
  change SQUARE_SIZE with 60.
  rewrite !Z.div_mul by lia.
  assert (Hf : 0 <= sq mod 8 < 8) by (apply Z.mod_pos_bound; lia).
  assert (Hr : 0 <= sq / 8 < 8).
  { split; [apply Z.div_pos; lia | apply Z.div_lt_upper_bound; lia]. }
  replace (7 - (7 - sq / 8)) with (sq / 8) by lia.
  repeat match goal with
         | |- context [?a <=? ?b] =>
             let H := fresh in
             destruct (Z.leb_spec a b) as [H|H]; [|lia]
         end.
  simpl. f_equal. unfold chess.square.
  pose proof (Z.div_mod sq 8). lia.
Qed.

Lemma pos_to_square_square_to_pos_d4 :
  pos_to_square (square_to_pos 27) = Some 27.
Proof. apply (pos_to_square_square_to_pos 27). lia. Defined.

(** ** Negotiating the agent's move *)

Section Negotiator.

Context {Board : Type} {E : chess.RulesEngine Board}.
Variable env : Env.

(** [get_ai_move] writes no file, whatever the service answers. *)
Lemma get_ai_move_keeps_files fen w :
  written (snd (get_ai_move env fen w)) = written w
  /\ saves (snd (get_ai_move env fen w)) = saves w.
Proof.
  unfold get_ai_move, read_answer.
  repeat (match goal with
          | |- context [match ?x with _ => _ end] => destruct x
          end; simpl; auto).
Qed.

(** A transport failure, a status other than 200, a body that is not JSON
    and a first word outside the legal moves all make it return [None]. *)
Lemma get_ai_move_rejects fen b w :
  chess.from_fen fen = Some b ->
  rejects (map chess.uci (chess.legal_moves b))
          (post env (length (sent w))
                (request_of fen (map chess.uci (chess.legal_moves b)))) = true ->
  fst (get_ai_move env fen w) = py.Returned None.
Proof.
  intros Hb Hr. unfold get_ai_move. rewrite Hb.
  destruct (map chess.uci (chess.legal_moves b)) as [|u us] eqn:Hl;
    [reflexivity|].
  unfold rejects in Hr.
  destruct (post env _ _) as [e|sc body]; [reflexivity|].
  destruct (negb (sc =? 200)); [reflexivity|].
  destruct body as [e|[|raw|]|]; try discriminate; [reflexivity|].
  unfold read_answer, response_text. rewrite split_lower_strip.
  destruct (py.split raw) as [|tok rest]; [discriminate|]. simpl map.
  apply negb_true_iff, bool_decide_eq_false in Hr. cbv beta iota.
  rewrite bool_decide_eq_false_2 by exact Hr. reflexivity.
Qed.

(** C10: for a position without legal moves [get_ai_move] returns [None]
    at once: no request is sent and the world is left as it was. *)
Theorem get_ai_move_no_legal_moves (fen : string) (b : Board) (w : World) :
  chess.from_fen fen = Some b ->
  chess.legal_moves b = [] ->
  get_ai_move env fen w = (py.Returned None, w).
Proof.
  intros Hb Hl. unfold get_ai_move. rewrite Hb, Hl. reflexivity.
Qed.

(** C5: when the service answers with status 200 and a text that has a
    first word, the candidate is that word lower-cased; [get_ai_move]
    returns it when it is, character for character, the UCI text of a legal
    move, and returns [None] when it is not. *)
Theorem get_ai_move_first_token (fen : string) (b : Board) (w : World)
    (raw tok : string) (rest : list string) :
  chess.from_fen fen = Some b ->
  chess.legal_moves b <> [] ->
  post env (length (sent w))
       (request_of fen (map chess.uci (chess.legal_moves b)))
  = requests.Response 200 (requests.JsonObject (requests.Text raw)) ->
  py.split raw = tok :: rest ->
  first_token_lowered raw = Some (py.lower tok)
  /\ fst (get_ai_move env fen w)
     = py.Returned
         (if bool_decide (py.lower tok ∈ map chess.uci (chess.legal_moves b))
          then Some (py.lower tok) else None).
Proof.
  intros Hb Hne Hpost Hsplit. split.
  - unfold first_token_lowered. now rewrite Hsplit.
  - unfold get_ai_move. rewrite Hb.
    destruct (map chess.uci (chess.legal_moves b)) as [|u us] eqn:Hl.
    + destruct (chess.legal_moves b); [congruence | discriminate].
    + rewrite Hpost. simpl negb. cbv iota. unfold read_answer, response_text.
      rewrite split_lower_strip, Hsplit. simpl map. cbv beta iota.
      destruct (bool_decide _); reflexivity.
Qed.

End Negotiator.

Lemma get_ai_move_no_legal_moves_fools_mate :
  get_ai_move (Transcript.world [] None)
              (Transcript.fen_of Transcript.Fools_mate) fresh_world
  = (py.Returned None, fresh_world).
Proof.
  apply (get_ai_move_no_legal_moves _ _ Transcript.Fools_mate); reflexivity.
Defined.

Lemma get_ai_move_first_token_e7e5 :
  first_token_lowered "  E7E5 is best " = Some "e7e5"
  /\ fst (get_ai_move (Transcript.world [Transcript.says "  E7E5 is best "] None)
                      (Transcript.fen_of Transcript.After_e4) fresh_world)
     = py.Returned (Some "e7e5").
Proof.
  assert (Hlegal : chess.legal_moves Transcript.After_e4 <> [])
    by (vm_compute; discriminate).
  exact (get_ai_move_first_token
           (Transcript.world [Transcript.says "  E7E5 is best "] None)
           (Transcript.fen_of Transcript.After_e4) Transcript.After_e4
           fresh_world "  E7E5 is best " "E7E5" ["is"; "best"]
           eq_refl Hlegal eq_refl eq_refl).
Defined.

(** C2: the answer has status 200 and its text is empty, blank or absent.
    The source indexes the empty list of words: [IndexError], which the
    [except] clause does not name, leaves [get_ai_move]. *)
Theorem get_ai_move_blank_response_raises :
  let ask answer :=
    fst (get_ai_move (Transcript.world [answer] None)
                     (Transcript.fen_of Transcript.After_e4) fresh_world) in
  ask (Transcript.says "   ") = py.Raised py.IndexError
  /\ ask (Transcript.says EmptyString) = py.Raised py.IndexError
  /\ ask (requests.Response 200 (requests.JsonObject requests.Missing))
     = py.Raised py.IndexError.
Proof. vm_compute. repeat split. Qed.

(** ** Selecting and moving with the mouse *)

Section Interaction.

Context {Board : Type} {E : chess.RulesEngine Board}.
Variable env : Env.

Implicit Types (st : State Board) (g : ChessGame Board).

(** The second click: the move from the selected square to the clicked one,
    without a promotion piece, is made when the selection holds it; the
    selection is dropped either way. *)
Lemma handle_click_selected cursor pos st s t :
  selected_square (fst st) = Some s ->
  pos_to_square pos = Some t ->
  handle_click env cursor pos st
  = let st1 := if commits st pos
               then make_move env (chess.Move_of s t) st else st in
    ({| board := board (fst st1); game := game (fst st1);
        selected_square := None; dragging := false; drag_piece := None;
        drag_pos := drag_pos (fst st1); legal_moves := ∅ |}, snd st1).
Proof.
  destruct st as [g w]. simpl. intros Hs Ht.
  unfold handle_click, commits. simpl. rewrite Hs, Ht.
  destruct (bool_decide _); reflexivity.
Qed.

(** The first click: a square is selected only if it holds a piece of the
    side to move; if none is selected the state is what it was. *)
Lemma handle_click_idle cursor pos st :
  selected_square (fst st) = None ->
  (forall sq, selected_square (fst (handle_click env cursor pos st)) = Some sq ->
     pos_to_square pos = Some sq
     /\ board (fst (handle_click env cursor pos st)) = board (fst st)
     /\ exists p, chess.piece_at (board (fst st)) sq = Some p
                  /\ chess.color p = chess.turn (board (fst st)))
  /\ (selected_square (fst (handle_click env cursor pos st)) = None ->
      handle_click env cursor pos st = st).
Proof.
  destruct st as [g w]. simpl. intros Hs. unfold handle_click. rewrite Hs.
  destruct (pos_to_square pos) as [sq|]; [|simpl; split; congruence].
  destruct (chess.piece_at (board g) sq) as [p|] eqn:Hp;
    [|simpl; split; congruence].
  destruct (Bool.eqb (chess.color p) _) eqn:Hc; [|simpl; split; congruence].
  simpl. split; [|discriminate].
  intros sq' [= <-]. repeat split. exists p. split; [exact Hp|].
  apply Bool.eqb_prop in Hc. rewrite Hc. unfold chess.WHITE.
  now destruct (chess.turn (board g)).
Qed.

Lemma handle_click_selection_ok cursor pos st :
  selection_ok (fst st) -> selection_ok (fst (handle_click env cursor pos st)).
Proof.
  intros Hok. destruct (selected_square (fst st)) as [s|] eqn:Hs.
  - destruct (pos_to_square pos) as [t|] eqn:Ht.
    + rewrite (handle_click_selected _ _ _ s t Hs Ht). intros s'. discriminate.
    + unfold handle_click. destruct st as [g w]. now rewrite Ht.
  - destruct (handle_click_idle cursor pos st Hs) as [Hsel Hnone].
    intros sq Hsq. destruct (Hsel sq Hsq) as (_ & Hb & p & Hp & Hc).
    exists p. now rewrite Hb.
Qed.

Lemma handle_event_selection_ok cursor ev st running :
  selection_ok (fst st) ->
  selection_ok (fst (fst (handle_event env cursor ev st running))).
Proof.
  intros Hok. destruct ev as [|button pos|button pos|pos|]; simpl; auto.
  - destruct (button =? 1); simpl; auto using handle_click_selection_ok.
  - destruct ((button =? 1) && dragging (fst st)); simpl;
      auto using handle_click_selection_ok.
  - destruct (dragging (fst st)); [|exact Hok]. now destruct st.
Qed.

Lemma handle_events_selection_ok evs st running :
  selection_ok (fst st) ->
  selection_ok (fst (fst (handle_events env evs st running))).
Proof.
  revert st running. induction evs as [|[ev cursor] evs IH];
    intros st running Hok; simpl; [exact Hok|].
  pose proof (handle_event_selection_ok cursor ev st running Hok) as H.
  destruct (handle_event env cursor ev st running) as [st' running'].
  now apply IH.
Qed.

(** C6: along every sequence of events the selected square holds a piece
    of the side to move. With nothing selected, a click selects a square
    only when that square holds a piece whose colour is the side to move,
    and leaves the state as it was otherwise. *)
Theorem selection_invariant (evs : list (pygame.Event * (Z * Z)))
    (st : State Board) (running : bool) :
  selection_ok (fst st) ->
  selection_ok (fst (fst (handle_events env evs st running)))
  /\ forall st0 : State Board, forall cursor pos,
       selected_square (fst st0) = None ->
       (forall sq,
          selected_square (fst (handle_click env cursor pos st0)) = Some sq ->
          pos_to_square pos = Some sq
          /\ exists p, chess.piece_at (board (fst st0)) sq = Some p
                       /\ chess.color p = chess.turn (board (fst st0)))
       /\ (selected_square (fst (handle_click env cursor pos st0)) = None ->
           handle_click env cursor pos st0 = st0).
Proof.
  intros Hok. split; [now apply handle_events_selection_ok|].
  intros st0 cursor pos Hs.
  destruct (handle_click_idle cursor pos st0 Hs) as [Hsel Hnone].
  split; [|exact Hnone].
  intros sq Hsq. destruct (Hsel sq Hsq) as (Hpos & _ & Hp). now split.
Qed.

(** A click that does not commit leaves board, record and world alone. *)
Lemma handle_click_no_commit cursor pos st :
  commits st pos = false ->
  board (fst (handle_click env cursor pos st)) = board (fst st)
  /\ game (fst (handle_click env cursor pos st)) = game (fst st)
  /\ snd (handle_click env cursor pos st) = snd st.
Proof.
  intros Hc. destruct (selected_square (fst st)) as [s|] eqn:Hs.
  - destruct (pos_to_square pos) as [t|] eqn:Ht.
    + rewrite (handle_click_selected _ _ _ s t Hs Ht), Hc. now simpl.
    + unfold handle_click. destruct st as [g w]. now rewrite Ht.
  - destruct (selected_square (fst (handle_click env cursor pos st)))
      as [sq|] eqn:Hsel.
    + destruct (handle_click_idle cursor pos st Hs) as [H _].
      destruct (H sq Hsel) as (_ & Hb & _). split; [exact Hb|].
      clear H Hb Hsel. destruct st as [g w]. unfold handle_click.
      simpl in Hs. rewrite Hs.
      repeat (match goal with
              | |- context [match ?x with _ => _ end] => destruct x
              end; simpl; auto).
    + destruct (handle_click_idle cursor pos st Hs) as [_ H].
      now rewrite (H Hsel).
Qed.

Lemma handle_clicks_no_commit ps st :
  none_commits env ps st = true ->
  board (fst (handle_clicks env ps st)) = board (fst st)
  /\ game (fst (handle_clicks env ps st)) = game (fst st)
  /\ snd (handle_clicks env ps st) = snd st.
Proof.
  revert st. induction ps as [|[cursor pos] ps IH]; intros st H; simpl;
    [now auto|].
  simpl in H. apply andb_true_iff in H as [Hc Hrest].
  apply negb_true_iff in Hc.
  destruct (handle_click_no_commit cursor pos st Hc) as (Hb & Hg & Hw).
  destruct (IH _ Hrest) as (Hb' & Hg' & Hw'). repeat split; congruence.
Qed.

(** C7: a click that asks for a move outside the selection's legal moves
    leaves the board, the record and the files as they were and clears the
    selection; so does any number of such clicks, with the clicks that
    select a piece in between. *)
Theorem illegal_attempts_change_nothing
    (ps : list ((Z * Z) * (Z * Z))) (cursor pos : Z * Z) (st : State Board) :
  none_commits env ps st = true ->
  rejected_attempt (handle_clicks env ps st) pos = true ->
  let st' := handle_click env cursor pos (handle_clicks env ps st) in
  board (fst st') = board (fst st)
  /\ game (fst st') = game (fst st)
  /\ snd st' = snd st
  /\ idle (fst st').
Proof.
  intros Hps Hrej st'.
  destruct (handle_clicks_no_commit ps st Hps) as (Hb & Hg & Hw).
  set (st1 := handle_clicks env ps st) in *.
  unfold rejected_attempt in Hrej.
  destruct (selected_square (fst st1)) as [s|] eqn:Hs; [|discriminate].
  destruct (pos_to_square pos) as [t|] eqn:Ht; [|discriminate].
  apply negb_true_iff in Hrej.
  assert (Hc : commits st1 pos = false)
    by (unfold commits; now rewrite Hs, Ht).
  destruct (handle_click_no_commit cursor pos st1 Hc) as (Hb' & Hg' & Hw').
  fold st' in Hb', Hg', Hw'. repeat split; try congruence;
    unfold st'; rewrite (handle_click_selected _ _ _ s t Hs Ht); reflexivity.
Qed.

(** Whatever is clicked, [handle_click] plays at most one move, and that
    move carries no promotion piece. *)
Lemma handle_click_plays_no_promotion cursor pos st :
  mainline (game (fst (handle_click env cursor pos st)))
  = mainline (game (fst st))
  \/ exists m, chess.promotion m = None
               /\ mainline (game (fst (handle_click env cursor pos st)))
                  = (mainline (game (fst st)) ++ [m])%list.
Proof.
  destruct (commits st pos) eqn:Hc.
  - unfold commits in Hc.
    destruct (selected_square (fst st)) as [s|] eqn:Hs; [|discriminate].
    destruct (pos_to_square pos) as [t|] eqn:Ht; [|discriminate].
    right. exists (chess.Move_of s t). split; [reflexivity|].
    rewrite (handle_click_selected _ _ _ s t Hs Ht).
    unfold commits. rewrite Hs, Ht, Hc. now destruct st.
  - left. destruct (handle_click_no_commit cursor pos st Hc) as (_ & Hg & _).
    now rewrite Hg.
Qed.

End Interaction.

Lemma selection_invariant_opening :
  let env := Transcript.world [] None in
  selection_ok
    (fst (fst (handle_events env
                 [Transcript.click "e2"; Transcript.release "e4";
                  Transcript.click "e7"]
                 Transcript.new_session true)))
  /\ forall st0 : State Transcript.Pos, forall cursor pos,
       selected_square (fst st0) = None ->
       (forall sq,
          selected_square (fst (handle_click env cursor pos st0)) = Some sq ->
          pos_to_square pos = Some sq
          /\ exists p, chess.piece_at (board (fst st0)) sq = Some p
                       /\ chess.color p = chess.turn (board (fst st0)))
       /\ (selected_square (fst (handle_click env cursor pos st0)) = None ->
           handle_click env cursor pos st0 = st0).
Proof.
  apply (selection_invariant (Transcript.world [] None)
           [Transcript.click "e2"; Transcript.release "e4";
            Transcript.click "e7"] Transcript.new_session true).
  intros s. simpl. discriminate.
Defined.

(** In the starting position: e2 is selected and e5 asked for, then d2 is
    selected and d5 asked for. *)
Lemma illegal_attempts_change_nothing_opening :
  let env := Transcript.world [] None in
  let at_ name := (Transcript.at_square name, Transcript.at_square name) in
  let st' :=
    handle_click env (Transcript.at_square "d5") (Transcript.at_square "d5")
      (handle_clicks env [at_ "e2"; at_ "e5"; at_ "d2"]
         Transcript.new_session) in
  board (fst st') = board (fst Transcript.new_session)
  /\ game (fst st') = game (fst Transcript.new_session)
  /\ snd st' = snd Transcript.new_session
  /\ idle (fst st').
Proof.
  apply (illegal_attempts_change_nothing (Transcript.world [] None)
           [(Transcript.at_square "e2", Transcript.at_square "e2");
            (Transcript.at_square "e5", Transcript.at_square "e5");
            (Transcript.at_square "d2", Transcript.at_square "d2")]
           (Transcript.at_square "d5") (Transcript.at_square "d5")
           Transcript.new_session).
  - vm_compute. reflexivity.
  - vm_compute. reflexivity.
Defined.

(** C3: a white pawn stands on a7 and a8 is free, so a7-a8 with a
    promotion piece is legal and a8 is among the selection's moves. The
    click on a8 builds the move without a promotion piece, finds it in no
    legal move, and drops the selection: nothing is played. *)
Theorem promotion_click_is_not_committed :
  let env := Transcript.world [] None in
  let queen := {| chess.from_square := 48; chess.to_square := 56;
                  chess.promotion := Some chess.QUEEN; chess.drop := None |} in
  let st0 : State Transcript.Pos :=
    (idle_on Transcript.Pawn_a7 {| headers := []; mainline := [] |},
     fresh_world) in
  let a7 := Transcript.at_square "a7" in
  let a8 := Transcript.at_square "a8" in
  let st1 := handle_click env a7 a7 st0 in
  let st2 := handle_click env a8 a8 st1 in
  queen ∈ chess.legal_moves Transcript.Pawn_a7
  /\ selected_square (fst st1) = Some 48
  /\ queen ∈ legal_moves (fst st1)
  /\ pos_to_square a8 = Some 56
  /\ commits st1 a8 = false
  /\ board (fst st2) = Transcript.Pawn_a7
  /\ mainline (game (fst st2)) = []
  /\ saves (snd st2) = 0%nat
  /\ idle (fst st2).
Proof.
  intros env queen st0 a7 a8 st1 st2.
  split; [apply (bool_decide_unpack _); vm_compute; exact I|].
  split; [vm_compute; reflexivity|].
  split; [apply (bool_decide_unpack _); vm_compute; exact I|].
  repeat split; vm_compute; reflexivity.
Qed.

(** ** Saving the record *)

Section Recorder.

Context {Board : Type} {E : chess.RulesEngine Board}.
Variable env : Env.

Lemma make_moves_game ms (st : State Board) :
  game (fst (make_moves env ms st))
  = {| headers := headers (game (fst st));
       mainline := mainline (game (fst st)) ++ ms |}.
Proof.
  revert st. induction ms as [|m ms IH]; intros [g w]; simpl.
  - rewrite app_nil_r. now destruct (game g).
  - rewrite IH. simpl. now rewrite <- app_assoc.
Qed.

(** C8: when [save_game] hits an I/O error it returns normally, having
    logged the error and written nothing; the record in memory is what it
    was, the session can go on applying moves, and the next save that
    succeeds writes the whole history, the moves made since included. *)
Theorem failed_save_is_absorbed (g : ChessGame Board) (w : World)
    (e : string) (ms : list chess.Move) :
  io_error env (saves w) = Some e ->
  io_error env (saves (snd (make_moves env ms (g, save_game env g w)))) = None ->
  let w1 := save_game env g w in
  let st2 := make_moves env ms (g, w1) in
  let history := {| headers := headers (game g);
                    mainline := mainline (game g) ++ ms |} in
  written w1 = written w
  /\ log w1 = (log w ++ [(ERROR, "Failed to save game: " +:+ e)])%list
  /\ game (fst st2) = history
  /\ written (save_game env (fst st2) (snd st2))
     = (written (snd st2)
        ++ [("games/game_" +:+ now env (saves (snd st2)) +:+ ".pgn",
             history)])%list.
Proof.
  intros Hfail Hok w1 st2 history.
  assert (Hg : game (fst st2) = history) by apply make_moves_game.
  repeat split.
  - unfold w1, save_game. now rewrite Hfail.
  - unfold w1, save_game. now rewrite Hfail.
  - exact Hg.
  - unfold save_game at 1. fold w1 st2 in Hok. rewrite Hok. simpl.
    now rewrite Hg.
Qed.

End Recorder.

(** The first save fails; after 1. e4 the next one writes the game. *)
Lemma failed_save_is_absorbed_disk_full :
  let env := Transcript.world [] (Some 0%nat) in
  let g := init (Board := Transcript.Pos) "2025.01.01" in
  let ms := [chess.Move_of 12 28] in
  let w1 := save_game env g fresh_world in
  let st2 := make_moves env ms (g, w1) in
  let history := {| headers := headers (game g);
                    mainline := mainline (game g) ++ ms |} in
  written w1 = written fresh_world
  /\ log w1 = (log fresh_world
               ++ [(ERROR, "Failed to save game: "
                           +:+ "No space left on device")])%list
  /\ game (fst st2) = history
  /\ written (save_game env (fst st2) (snd st2))
     = (written (snd st2)
        ++ [("games/game_" +:+ now env (saves (snd st2)) +:+ ".pgn",
             history)])%list.
Proof.
  apply (failed_save_is_absorbed (Transcript.world [] (Some 0%nat))
           (init "2025.01.01") fresh_world "No space left on device"
           [chess.Move_of 12 28]); reflexivity.
Defined.

(** ** The session *)

Section Session.

Context {Board : Type} {E : chess.RulesEngine Board}.
Variable env : Env.

(** C1 as the code has it: at the agent's turn, when the transport fails,
    the status is not 200, the body is not JSON or the suggested move is
    not a legal one, the loop is left by [break] with the session as it
    was: board, record and selection are unchanged, nothing is written and
    [save_game] is not called. *)
Theorem rejected_suggestion_ends_session (st : State Board) (b : Board) :
  awaiting_agent (fst st) = true ->
  chess.from_fen (chess.fen (board (fst st))) = Some b ->
  rejects (map chess.uci (chess.legal_moves b))
          (post env (length (sent (snd st)))
                (request_of (chess.fen (board (fst st)))
                            (map chess.uci (chess.legal_moves b)))) = true ->
  snd (agent_turn env st) = Some Break
  /\ fst (fst (agent_turn env st)) = fst st
  /\ written (snd (fst (agent_turn env st))) = written (snd st)
  /\ saves (snd (fst (agent_turn env st))) = saves (snd st)
  /\ forall evs rest st0,
       fst (handle_events env evs st0 true) = st ->
       loop env (evs :: rest) st0 = (fst (agent_turn env st), Break).
Proof.
  intros Hturn Hb Hrej.
  pose proof (get_ai_move_rejects env _ b (snd st) Hb Hrej) as Hnone.
  pose proof (get_ai_move_keeps_files env (chess.fen (board (fst st))) (snd st))
    as [Hwr Hsv].
  assert (Hagent :
    agent_turn env st
    = ((fst st,
        logging ERROR "AI returned an invalid move. Ending game."
          (snd (get_ai_move env (chess.fen (board (fst st))) (snd st)))),
       Some Break)).
  { destruct st as [g w]. unfold agent_turn. simpl in *.
    unfold awaiting_agent in Hturn. rewrite Hturn.
    destruct (get_ai_move env (chess.fen (board g)) w) as [o w1].
    simpl in Hnone. now subst o. }
  rewrite Hagent. simpl. repeat split; auto.
  intros evs rest st0 Hev. unfold frame.
  destruct (handle_events env evs st0 true) as [st1 running].
  simpl in Hev. subst st1. now rewrite Hagent.
Qed.

End Session.

(** After 1. e4 the service suggests e7-e4. *)
Lemma rejected_suggestion_ends_session_e7e4 :
  let env := Transcript.world [Transcript.says "e7e4"] None in
  let st : State Transcript.Pos :=
    fst (handle_events env [Transcript.click "e2"; Transcript.release "e4"]
           Transcript.new_session true) in
  snd (agent_turn env st) = Some Break
  /\ fst (fst (agent_turn env st)) = fst st
  /\ written (snd (fst (agent_turn env st))) = written (snd st)
  /\ saves (snd (fst (agent_turn env st))) = saves (snd st)
  /\ forall evs rest st0,
       fst (handle_events env evs st0 true) = st ->
       loop env (evs :: rest) st0 = (fst (agent_turn env st), Break).
Proof.
  apply (rejected_suggestion_ends_session
           (Transcript.world [Transcript.says "e7e4"] None)
           (fst (handle_events
                   (Transcript.world [Transcript.says "e7e4"] None)
                   [Transcript.click "e2"; Transcript.release "e4"]
                   Transcript.new_session true))
           Transcript.After_e4); reflexivity.
Defined.

(** C1 as stated fails: the human plays 1. e4, the service suggests the
    move e7-e4, which is not legal. The session ends by [break], and
    [save_game] is not called on the way out: the only save of the run is
    the one that followed 1. e4. *)
Lemma rejected_suggestion_is_not_saved :
  let env := Transcript.world [Transcript.says "e7e4"] None in
  let batch := [Transcript.click "e2"; Transcript.release "e4"] in
  let st : State Transcript.Pos :=
    fst (handle_events env batch Transcript.new_session true) in
  let run := _main_loop env [batch] Transcript.new_session in
  awaiting_agent (fst st) = true
  /\ rejects (map chess.uci (chess.legal_moves (board (fst st))))
             (Transcript.says "e7e4") = true
  /\ snd run = Break
  /\ saves (snd st) = 1%nat
  /\ saves (snd (fst run)) = 1%nat
  /\ ~ ends_with_one_save env st.
Proof.
  repeat split; try (vm_compute; reflexivity).
  intros [_ H]. vm_compute in H. discriminate.
Qed.

(** C4: the human plays 1. e4 and, in the same batch of events, picks up
    the black pawn on e7 (it is Black's turn, so the pawn is selected with
    the moves e7-e6 and e7-e5). The agent then answers d7-d5. The
    selection survives the agent's move, and the release on e5 applies
    e7-e5 with White to move: a move that is not legal in the position it
    is played in. *)
Theorem stale_selection_applies_illegal_move :
  let env := Transcript.world [Transcript.says "d7d5"] None in
  let run :=
    _main_loop env [[Transcript.click "e2"; Transcript.release "e4";
                     Transcript.click "e7"]] Transcript.new_session in
  let st1 := fst run in
  let st2 := fst (handle_events env [Transcript.release "e5"] st1 true) in
  let e7e5 := chess.Move_of 52 36 in
  snd run = Continue
  /\ board (fst st1) = Transcript.After_e4_d5
  /\ chess.turn (board (fst st1)) = chess.WHITE
  /\ selected_square (fst st1) = Some 52
  /\ mainline (game (fst st1)) = [chess.Move_of 12 28; chess.Move_of 51 35]
  /\ ~ e7e5 ∈ chess.legal_moves (board (fst st1))
  /\ mainline (game (fst st2)) = (mainline (game (fst st1)) ++ [e7e5])%list
  /\ board (fst st2) = chess.push (board (fst st1)) e7e5
  /\ legal_line chess.initial (mainline (game (fst st2))) = false.
Proof.
  intros env run st1 st2 e7e5.
  repeat split; try (vm_compute; reflexivity).
  apply (bool_decide_eq_false_1 _). vm_compute. reflexivity.
Qed.

(** * Further properties of the program *)

(** ** Board and screen, the other way round *)

Lemma div_60_range x : 0 <= x / 60 <= 7 <-> 0 <= x < 480.
Proof.
  pose proof (Z.div_mod x 60 ltac:(lia)).
  pose proof (Z.mod_pos_bound x 60 ltac:(lia)). lia.
Qed.

(** A position maps to a square exactly when it lies inside the window. *)
Theorem pos_to_square_inside_window (x y : Z) :
  is_Some (pos_to_square (x, y)) <-> 0 <= x < WIDTH /\ 0 <= y < HEIGHT.
Proof.
  unfold pos_to_square. change SQUARE_SIZE with 60.
  change WIDTH with 480. change HEIGHT with 480.
  pose proof (div_60_range x) as Hx. pose proof (div_60_range y) as Hy.
  destruct (Z.leb_spec 0 (x / 60)), (Z.leb_spec (x / 60) 7),
    (Z.leb_spec 0 (7 - y / 60)), (Z.leb_spec (7 - y / 60) 7); simpl;
    (split; [intros [? Hs]; try discriminate Hs; lia
            | intros ?; try (eexists; reflexivity); lia]).
Qed.

(** The square a position maps to is a square of the board, and its screen
    position is the top-left corner of the 60x60 cell the position is in. *)
Theorem square_to_pos_pos_to_square (x y : Z) (sq : chess.Square) :
  pos_to_square (x, y) = Some sq ->
  0 <= sq <= 63 /\ square_to_pos sq = (x - x mod 60, y - y mod 60).
Proof.
  unfold pos_to_square. change SQUARE_SIZE with 60.
  destruct (Z.leb_spec 0 (x / 60)), (Z.leb_spec (x / 60) 7),
    (Z.leb_spec 0 (7 - y / 60)), (Z.leb_spec (7 - y / 60) 7); simpl;
    try discriminate.
  intros [= <-]. unfold chess.square, square_to_pos.
  destruct (square_file_rank ((7 - y / 60) * 8 + x / 60)) as [-> ->].
  change SQUARE_SIZE with 60.
  replace (((7 - y / 60) * 8 + x / 60) mod 8) with (x / 60)
    by (rewrite Z.add_comm, Z.mod_add by lia; symmetry;
        apply Z.mod_small; lia).
  replace (((7 - y / 60) * 8 + x / 60) / 8) with (7 - y / 60)
    by (rewrite Z.add_comm, Z.div_add by lia;
        rewrite (Z.div_small (x / 60) 8) by lia; lia).
  split; [lia|].
  pose proof (Z.div_mod x 60 ltac:(lia)).
  pose proof (Z.div_mod y 60 ltac:(lia)). f_equal; lia.
Qed.

Lemma square_to_pos_pos_to_square_centre_e4 :
  0 <= 28 <= 63 /\ square_to_pos 28 = (270 - 270 mod 60, 270 - 270 mod 60).
Proof. apply (square_to_pos_pos_to_square 270 270 28). reflexivity. Defined.

(** ** Clicks, one by one and in a row *)

Section ClickEffects.

Context {Board : Type} {E : chess.RulesEngine Board}.
Variable env : Env.

Implicit Types (st : State Board) (g : ChessGame Board).

Lemma save_game_counts g w :
  saves (save_game env g w) = S (saves w)
  /\ sent (save_game env g w) = sent w.
Proof. unfold save_game. now destruct (io_error env (saves w)). Qed.

(** The first click that succeeds, written out. *)
Lemma handle_click_select cursor pos st sq :
  selected_square (fst st) = None ->
  selected_square (fst (handle_click env cursor pos st)) = Some sq ->
  exists p,
    chess.piece_at (board (fst st)) sq = Some p
    /\ handle_click env cursor pos st
       = ({| board := board (fst st); game := game (fst st);
             selected_square := Some sq; dragging := true;
             drag_piece := Some (chess.symbol p); drag_pos := Some cursor;
             legal_moves :=
               list_to_set
                 (filter (fun m => chess.from_square m = sq)
                         (chess.legal_moves (board (fst st)))) |}, snd st).
Proof.
  intros Hs Hsel.
  destruct (handle_click_idle env cursor pos st Hs) as [H _].
  destruct (H sq Hsel) as (Hpos & _ & p & Hp & Hc). exists p.
  split; [exact Hp|]. destruct st as [g w]. simpl in *.
  unfold handle_click. rewrite Hpos, Hs, Hp, Hc. unfold chess.WHITE.
  now destruct (chess.turn (board g)).
Qed.

(** The moves kept after a click were kept before it or are legal moves
    of the board the click found. *)
Lemma handle_click_kept_moves cursor pos st m :
  m ∈ legal_moves (fst (handle_click env cursor pos st)) ->
  m ∈ legal_moves (fst st) \/ m ∈ chess.legal_moves (board (fst st)).
Proof.
  destruct (selected_square (fst st)) as [s|] eqn:Hs.
  - destruct (pos_to_square pos) as [t|] eqn:Ht.
    + rewrite (handle_click_selected env _ _ _ s t Hs Ht). simpl.
      intros H. now apply not_elem_of_empty in H.
    + unfold handle_click. destruct st as [g w]. rewrite Ht. now left.
  - destruct (selected_square (fst (handle_click env cursor pos st)))
      as [sq|] eqn:Hsel.
    + destruct (handle_click_select cursor pos st sq Hs Hsel) as (p & _ & ->).
      simpl. rewrite elem_of_list_to_set, list_elem_of_filter. tauto.
    + destruct (handle_click_idle env cursor pos st Hs) as [_ H].
      rewrite (H Hsel). now left.
Qed.

(** What one click does to the session: it appends at most one move,
    pushes it, calls [save_game] once per move and sends nothing; while the
    selection is fresh the move is legal and the selection stays fresh. *)
Lemma handle_click_effect cursor pos st :
  exists ms,
    game (fst (handle_click env cursor pos st))
    = {| headers := headers (game (fst st));
         mainline := mainline (game (fst st)) ++ ms |}
    /\ board (fst (handle_click env cursor pos st))
       = pushes (board (fst st)) ms
    /\ saves (snd (handle_click env cursor pos st))
       = (saves (snd st) + length ms)%nat
    /\ sent (snd (handle_click env cursor pos st)) = sent (snd st)
    /\ (selection_fresh (fst st) ->
        legal_line (board (fst st)) ms = true
        /\ selection_fresh (fst (handle_click env cursor pos st))).
Proof.
  destruct (commits st pos) eqn:Hc.
  - pose proof Hc as Hc'. unfold commits in Hc'.
    destruct (selected_square (fst st)) as [s|] eqn:Hs; [|discriminate].
    destruct (pos_to_square pos) as [t|] eqn:Ht; [|discriminate].
    exists [chess.Move_of s t].
    rewrite (handle_click_selected env _ _ _ s t Hs Ht), Hc.
    destruct st as [g w]. simpl in *.
    destruct (save_game_counts
                {| board := chess.push (board g) (chess.Move_of s t);
                   game := {| headers := headers (game g);
                              mainline := mainline (game g)
                                          ++ [chess.Move_of s t] |};
                   selected_square := selected_square g;
                   dragging := dragging g; drag_piece := drag_piece g;
                   drag_pos := drag_pos g; legal_moves := legal_moves g |} w)
      as [-> ->].
    repeat split; [lia|..].
    + apply bool_decide_eq_true in Hc'. apply H in Hc'.
      now rewrite (bool_decide_eq_true_2 _ Hc').
    + intros m Hm. simpl in Hm. now apply not_elem_of_empty in Hm.
  - exists []. destruct (handle_click_no_commit env cursor pos st Hc)
      as (Hb & Hg & Hw).
    rewrite Hb, Hg, Hw, app_nil_r. simpl.
    repeat split; [now destruct (game (fst st)) | lia |].
    intros m Hm. rewrite Hb.
    destruct (handle_click_kept_moves cursor pos st m Hm); auto.
Qed.

(** The same for one event of the loop. *)
Lemma handle_event_effect cursor ev st running :
  exists ms,
    game (fst (fst (handle_event env cursor ev st running)))
    = {| headers := headers (game (fst st));
         mainline := mainline (game (fst st)) ++ ms |}
    /\ board (fst (fst (handle_event env cursor ev st running)))
       = pushes (board (fst st)) ms
    /\ saves (snd (fst (handle_event env cursor ev st running)))
       = (saves (snd st) + length ms)%nat
    /\ sent (snd (fst (handle_event env cursor ev st running)))
       = sent (snd st)
    /\ (selection_fresh (fst st) ->
        legal_line (board (fst st)) ms = true
        /\ selection_fresh (fst (fst (handle_event env cursor ev st running)))).
Proof.
  assert (Hsame : exists ms,
    game (fst st) = {| headers := headers (game (fst st));
                       mainline := mainline (game (fst st)) ++ ms |}
    /\ board (fst st) = pushes (board (fst st)) ms
    /\ saves (snd st) = (saves (snd st) + length ms)%nat
    /\ sent (snd st) = sent (snd st)
    /\ (selection_fresh (fst st) ->
        legal_line (board (fst st)) ms = true /\ selection_fresh (fst st))).
  { exists []. rewrite app_nil_r. simpl.
    repeat split; [now destruct (game (fst st)) | lia | assumption]. }
  destruct ev as [|button pos|button pos|pos|]; simpl; try exact Hsame.
  - destruct (button =? 1); simpl;
      [apply handle_click_effect | exact Hsame].
  - destruct ((button =? 1) && dragging (fst st)); simpl;
      [apply handle_click_effect | exact Hsame].
  - destruct (dragging (fst st)); [|exact Hsame].
    destruct st as [g w]. exact Hsame.
Qed.

Lemma legal_line_app (b : Board) ms1 ms2 :
  legal_line b (ms1 ++ ms2)
  = legal_line b ms1 && legal_line (pushes b ms1) ms2.
Proof.
  revert b. induction ms1 as [|m ms1 IH]; intros b; simpl; [reflexivity|].
  now rewrite IH, andb_assoc.
Qed.

Lemma handle_events_effect evs st running :
  exists ms,
    game (fst (fst (handle_events env evs st running)))
    = {| headers := headers (game (fst st));
         mainline := mainline (game (fst st)) ++ ms |}
    /\ board (fst (fst (handle_events env evs st running)))
       = pushes (board (fst st)) ms
    /\ saves (snd (fst (handle_events env evs st running)))
       = (saves (snd st) + length ms)%nat
    /\ sent (snd (fst (handle_events env evs st running)))
       = sent (snd st)
    /\ (selection_fresh (fst st) ->
        legal_line (board (fst st)) ms = true
        /\ selection_fresh (fst (fst (handle_events env evs st running)))).
Proof.
  revert st running. induction evs as [|[ev cursor] evs IH];
    intros st running; simpl.
  - exists []. rewrite app_nil_r. simpl.
    repeat split; [now destruct (game (fst st)) | lia | assumption].
  - destruct (handle_event_effect cursor ev st running)
      as (ms1 & Hg1 & Hb1 & Hs1 & Hr1 & Hf1).
    destruct (handle_event env cursor ev st running) as [st1 running1].
    simpl in *.
    destruct (IH st1 running1) as (ms2 & Hg2 & Hb2 & Hs2 & Hr2 & Hf2).
    exists (ms1 ++ ms2)%list. rewrite Hg2, Hb2, Hs2, Hr2, Hg1, Hb1, Hs1, Hr1.
    simpl. rewrite length_app, app_assoc. unfold pushes.
    rewrite fold_left_app. repeat split; [lia|..].
    + destruct (Hf1 H) as [Hl1 Hfr1]. rewrite Hb1 in Hf2.
      destruct (Hf2 Hfr1) as [Hl2 _]. rewrite legal_line_app.
      now rewrite Hl1, Hl2.
    + destruct (Hf1 H) as [_ Hfr1]. now apply Hf2.
Qed.

End ClickEffects.

Section ClickProperties.

Context {Board : Type} {E : chess.RulesEngine Board}.
Variable env : Env.

Implicit Types (st : State Board) (g : ChessGame Board).

(** When a click selects a square, the moves kept for the selection are
    exactly the legal moves of the board that start on that square. *)
Theorem selection_holds_moves_from_square
    (cursor pos : Z * Z) (st : State Board) (sq : chess.Square) :
  selected_square (fst st) = None ->
  selected_square (fst (handle_click env cursor pos st)) = Some sq ->
  forall m,
    m ∈ legal_moves (fst (handle_click env cursor pos st))
    <-> m ∈ chess.legal_moves (board (fst st)) /\ chess.from_square m = sq.
Proof.
  intros Hs Hsel m.
  destruct (handle_click_select env cursor pos st sq Hs Hsel) as (p & _ & ->).
  simpl. rewrite elem_of_list_to_set, list_elem_of_filter. tauto.
Qed.


(** Clicks alone never play an illegal move: when the selection is fresh,
    whatever events follow, the moves they add to the record form a line
    that is legal from the board they started on, and the board is that
    line pushed. *)
Theorem events_apply_only_legal_moves
    (evs : list (pygame.Event * (Z * Z))) (st : State Board) (running : bool) :
  selection_fresh (fst st) ->
  exists ms,
    mainline (game (fst (fst (handle_events env evs st running))))
    = (mainline (game (fst st)) ++ ms)%list
    /\ board (fst (fst (handle_events env evs st running)))
       = pushes (board (fst st)) ms
    /\ legal_line (board (fst st)) ms = true.
Proof.
  intros Hfresh.
  destruct (handle_events_effect env evs st running)
    as (ms & Hg & Hb & _ & _ & Hl).
  exists ms. rewrite Hg. destruct (Hl Hfresh) as [Hlegal _]. now repeat split.
Qed.

(** Handling events calls [save_game] exactly once for every move it adds
    to the record, never shortens the record and never contacts the
    suggestion service. *)
Theorem events_save_once_per_move
    (evs : list (pygame.Event * (Z * Z))) (st : State Board) (running : bool) :
  let st' := fst (handle_events env evs st running) in
  (length (mainline (game (fst st))) <= length (mainline (game (fst st'))))%nat
  /\ saves (snd st')
     = (saves (snd st) + (length (mainline (game (fst st')))
                          - length (mainline (game (fst st)))))%nat
  /\ headers (game (fst st')) = headers (game (fst st))
  /\ sent (snd st') = sent (snd st).
Proof.
  intros st'. unfold st'.
  destruct (handle_events_effect env evs st running)
    as (ms & Hg & _ & Hs & Hr & _).
  rewrite Hg, Hs, Hr. simpl. rewrite length_app. repeat split; lia.
Qed.

Lemma handle_event_running cursor ev st running :
  fst (handle_event env cursor ev st running)
  = fst (handle_event env cursor ev st true)
  /\ snd (handle_event env cursor ev st running)
     = running && negb (is_quit ev).
Proof.
  destruct ev as [|button pos|button pos|pos|]; simpl.
  - now rewrite andb_false_r.
  - destruct (button =? 1); simpl; now rewrite andb_true_r.
  - destruct ((button =? 1) && dragging (fst st)); simpl;
      now rewrite andb_true_r.
  - destruct (dragging (fst st)); [destruct st|]; simpl;
      now rewrite andb_true_r.
  - now rewrite andb_true_r.
Qed.

Lemma handle_events_running evs st running :
  fst (handle_events env evs st running)
  = fst (handle_events env (without_quit evs) st true)
  /\ snd (handle_events env evs st running)
     = running && forallb (fun e => negb (is_quit (fst e))) evs.
Proof.
  revert st running. induction evs as [|[ev cursor] evs IH];
    intros st running; simpl; [now rewrite andb_true_r|].
  destruct (handle_event_running cursor ev st running) as [Hst Hrun].
  destruct (handle_event env cursor ev st running) as [st1 running1].
  simpl in Hst, Hrun. subst.
  destruct (IH (fst (handle_event env cursor ev st true))
               (running && negb (is_quit ev))) as [-> ->].
  rewrite andb_assoc. split; [|reflexivity].
  change (without_quit ((ev, cursor) :: evs))
    with (if negb (is_quit ev) then (ev, cursor) :: without_quit evs
          else without_quit evs).
  destruct (is_quit ev) eqn:Hq; simpl.
  - destruct ev; try discriminate. reflexivity.
  - destruct (handle_event_running cursor ev st true) as [_ Hr].
    rewrite Hq in Hr.
    destruct (handle_event env cursor ev st true) as [st' r'].
    simpl in *. now subst r'.
Qed.

(** [QUIT] only clears the flag [running]: the events that come after it in
    the batch are handled as if it were not there, and the flag ends up
    true exactly when the batch holds no [QUIT]. *)
Theorem quit_does_not_cut_the_batch
    (evs : list (pygame.Event * (Z * Z))) (st : State Board) :
  fst (handle_events env evs st true)
  = fst (handle_events env (without_quit evs) st true)
  /\ snd (handle_events env evs st true)
     = forallb (fun e => negb (is_quit (fst e))) evs.
Proof. apply (handle_events_running evs st true). Qed.

Lemma handle_click_coherent cursor pos st :
  selection_coherent (fst st) ->
  selection_coherent (fst (handle_click env cursor pos st)).
Proof.
  intros Hco. destruct (selected_square (fst st)) as [s|] eqn:Hs.
  - destruct (pos_to_square pos) as [t|] eqn:Ht.
    + rewrite (handle_click_selected env _ _ _ s t Hs Ht).
      unfold selection_coherent. simpl. now repeat split.
    + unfold handle_click. destruct st as [g w]. now rewrite Ht.
  - destruct (selected_square (fst (handle_click env cursor pos st)))
      as [sq|] eqn:Hsel.
    + destruct (handle_click_select env cursor pos st sq Hs Hsel)
        as (p & Hp & ->).
      unfold selection_coherent. simpl. split; [reflexivity|].
      split; [now exists p|].
      intros m. rewrite elem_of_list_to_set, list_elem_of_filter. tauto.
    + destruct (handle_click_idle env cursor pos st Hs) as [_ H].
      now rewrite (H Hsel).
Qed.

Lemma handle_event_coherent cursor ev st running :
  selection_coherent (fst st) ->
  selection_coherent (fst (fst (handle_event env cursor ev st running))).
Proof.
  intros Hco. destruct ev as [|button pos|button pos|pos|]; simpl; auto.
  - destruct (button =? 1); simpl; auto using handle_click_coherent.
  - destruct ((button =? 1) && dragging (fst st)); simpl;
      auto using handle_click_coherent.
  - destruct (dragging (fst st)); [|exact Hco]. now destruct st.
Qed.

(** Along every sequence of events the selection fields agree: a piece is
    being dragged exactly while a square is selected, [drag_piece] is the
    symbol of the piece on that square, and every move kept starts there;
    with nothing selected no move is kept. *)
Theorem selection_stays_coherent
    (evs : list (pygame.Event * (Z * Z))) (st : State Board) (running : bool) :
  selection_coherent (fst st) ->
  selection_coherent (fst (fst (handle_events env evs st running))).
Proof.
  revert st running. induction evs as [|[ev cursor] evs IH];
    intros st running Hco; simpl; [exact Hco|].
  pose proof (handle_event_coherent cursor ev st running Hco) as H.
  destruct (handle_event env cursor ev st running) as [st' running'].
  now apply IH.
Qed.

End ClickProperties.

(** ** More on the negotiation *)

Lemma split_from_nonempty_token tok s :
  tok <> EmptyString -> py.split_from tok s <> [].
Proof.
  revert tok. induction s as [|c s IH]; intros tok Htok; simpl.
  - destruct tok; [congruence | discriminate].
  - destruct (py.isspace c).
    + destruct tok; [congruence | discriminate].
    + apply IH. destruct tok; discriminate.
Qed.

(** [split] finds no word exactly in a text of white space. *)
Lemma split_nil_all_space s : py.split s = [] <-> all_space s = true.
Proof.
  unfold py.split. induction s as [|c s IH]; simpl; [tauto|].
  destruct (py.isspace c); simpl; [exact IH|].
  split; [|discriminate].
  intros H. now apply split_from_nonempty_token in H.
Qed.

Section NegotiatorMore.

Context {Board : Type} {E : chess.RulesEngine Board}.
Variable env : Env.

(** Whatever the service answers, a move that [get_ai_move] returns is the
    UCI text of a legal move of the position. *)
Theorem get_ai_move_returns_only_legal_moves
    (fen : string) (w : World) (m : string) :
  fst (get_ai_move env fen w) = py.Returned (Some m) ->
  exists b, chess.from_fen fen = Some b
            /\ m ∈ map chess.uci (chess.legal_moves b).
Proof.
  unfold get_ai_move, read_answer.
  destruct (chess.from_fen fen) as [b|]; [|discriminate].
  intros H. exists b. split; [reflexivity|].
  destruct (map chess.uci (chess.legal_moves b)) as [|u us]; [discriminate|].
  destruct (post env _ _) as [e|sc body]; [discriminate|].
  destruct (negb (sc =? 200)); [discriminate|].
  destruct body as [e|f|]; try discriminate.
  destruct (response_text f) as [raw|]; [|discriminate].
  destruct (py.split _) as [|tok rest]; [discriminate|].
  destruct (bool_decide (tok ∈ u :: us)) eqn:Hin; [|discriminate].
  injection H as <-. now apply bool_decide_eq_true in Hin.
Qed.

Lemma get_ai_move_sent (fen : string) (w : World) :
  sent (snd (get_ai_move env fen w))
  = (sent w
     ++ match chess.from_fen fen with
        | Some b =>
            match chess.legal_moves b with
            | [] => []
            | _ => [request_of fen (map chess.uci (chess.legal_moves b))]
            end
        | None => []
        end)%list.
Proof.
  unfold get_ai_move.
  destruct (chess.from_fen fen) as [b|]; [|now rewrite app_nil_r].
  destruct (chess.legal_moves b) as [|m ms]; [now rewrite app_nil_r|].
  simpl map. cbv beta iota zeta.
  destruct (post env _ _) as [e|sc body]; [reflexivity|].
  destruct (negb (sc =? 200)); [reflexivity|].
  unfold read_answer.
  destruct body as [e|f|]; try reflexivity.
  destruct (response_text f) as [raw|]; [|reflexivity].
  destruct (py.split _) as [|tok rest]; [reflexivity|].
  destruct (bool_decide _); reflexivity.
Qed.

(** One call sends exactly one request when the position has legal moves
    and none otherwise: there is no second attempt, whatever the answer. *)
Theorem get_ai_move_sends_at_most_one_request (fen : string) (w : World) :
  sent (snd (get_ai_move env fen w))
  = (sent w
     ++ match chess.from_fen fen with
        | Some b =>
            match chess.legal_moves b with
            | [] => []
            | _ => [request_of fen (map chess.uci (chess.legal_moves b))]
            end
        | None => []
        end)%list.
Proof. exact (get_ai_move_sent fen w). Qed.

(** With status 200 and a text under ["response"], [get_ai_move] raises
    [IndexError] exactly when the text is empty or all white space; with
    any other text it returns. *)
Theorem get_ai_move_raises_on_blank_text
    (fen : string) (b : Board) (w : World) (raw : string) :
  chess.from_fen fen = Some b ->
  chess.legal_moves b <> [] ->
  post env (length (sent w))
       (request_of fen (map chess.uci (chess.legal_moves b)))
  = requests.Response 200 (requests.JsonObject (requests.Text raw)) ->
  (fst (get_ai_move env fen w) = py.Raised py.IndexError
   <-> all_space raw = true)
  /\ (all_space raw = false ->
      exists r, fst (get_ai_move env fen w) = py.Returned r).
Proof.
  intros Hb Hne Hpost. unfold get_ai_move. rewrite Hb.
  destruct (map chess.uci (chess.legal_moves b)) as [|u us] eqn:Hl.
  { destruct (chess.legal_moves b); [congruence | discriminate]. }
  rewrite Hpost. simpl negb. cbv iota. unfold read_answer, response_text.
  rewrite split_lower_strip. rewrite <- split_nil_all_space.
  destruct (py.split raw) as [|tok rest] eqn:Hs; simpl map; cbv beta iota.
  - split; [tauto|]. intros H. exfalso.
    assert (all_space raw = true) by now apply split_nil_all_space.
    congruence.
  - split.
    + split; [|discriminate]. destruct (bool_decide _); discriminate.
    + intros _. destruct (bool_decide _); eexists; reflexivity.
Qed.

(** With status 200 and a JSON body that is not an object, or whose
    ["response"] is not text, [get_ai_move] raises [AttributeError]: the
    request has been sent and nothing is logged. *)
Theorem get_ai_move_raises_on_non_text
    (fen : string) (b : Board) (w : World) (body : requests.Body) :
  chess.from_fen fen = Some b ->
  chess.legal_moves b <> [] ->
  post env (length (sent w))
       (request_of fen (map chess.uci (chess.legal_moves b)))
  = requests.Response 200 body ->
  body = requests.JsonOther \/ body = requests.JsonObject requests.NotText ->
  fst (get_ai_move env fen w) = py.Raised py.AttributeError
  /\ log (snd (get_ai_move env fen w)) = log w.
Proof.
  intros Hb Hne Hpost Hbody. unfold get_ai_move. rewrite Hb.
  destruct (map chess.uci (chess.legal_moves b)) as [|u us] eqn:Hl.
  { destruct (chess.legal_moves b); [congruence | discriminate]. }
  rewrite Hpost. simpl negb. cbv iota.
  destruct Hbody as [-> | ->]; simpl; auto.
Qed.

(** A rejected answer (transport failure, status other than 200, body that
    is not JSON, first word not a legal move) makes [get_ai_move] return
    [None] with an error as the last entry of the log. *)
Theorem get_ai_move_logs_every_rejection
    (fen : string) (b : Board) (w : World) :
  chess.from_fen fen = Some b ->
  chess.legal_moves b <> [] ->
  rejects (map chess.uci (chess.legal_moves b))
          (post env (length (sent w))
                (request_of fen (map chess.uci (chess.legal_moves b)))) = true ->
  fst (get_ai_move env fen w) = py.Returned None
  /\ exists msg, last (log (snd (get_ai_move env fen w))) = Some (ERROR, msg).
Proof.
  intros Hb Hne Hr. split; [exact (get_ai_move_rejects env fen b w Hb Hr)|].
  unfold get_ai_move. rewrite Hb.
  destruct (map chess.uci (chess.legal_moves b)) as [|u us] eqn:Hl.
  { destruct (chess.legal_moves b); [congruence | discriminate]. }
  unfold rejects in Hr.
  destruct (post env _ _) as [e|sc body].
  { eexists. simpl. apply last_snoc. }
  destruct (negb (sc =? 200)).
  { eexists. simpl. apply last_snoc. }
  destruct body as [e|[|raw|]|]; try discriminate.
  { eexists. simpl. apply last_snoc. }
  unfold read_answer, response_text. rewrite split_lower_strip.
  destruct (py.split raw) as [|tok rest]; [discriminate|]. simpl map.
  apply negb_true_iff, bool_decide_eq_false in Hr. cbv beta iota.
  rewrite bool_decide_eq_false_2 by exact Hr.
  eexists. simpl. apply last_snoc.
Qed.

End NegotiatorMore.

(** ** The loop, frame by frame *)

Section LoopProperties.

Context {Board : Type} {E : chess.RulesEngine Board}.
Variable env : Env.

Implicit Types (st : State Board) (g : ChessGame Board).


(** The three ways the agent's turn can go: it is not the agent's turn and
    nothing happens; the suggestion is rejected or an exception escapes and
    the session stops as it is; a legal move is applied. *)
Lemma agent_turn_cases st :
  (awaiting_agent (fst st) = false /\ agent_turn env st = (st, None))
  \/ (awaiting_agent (fst st) = true
      /\ exists w1 c,
           agent_turn env st = ((fst st, w1), Some c)
           /\ written w1 = written (snd st)
           /\ saves w1 = saves (snd st)
           /\ sent w1
              = sent (snd (get_ai_move env (chess.fen (board (fst st)))
                                       (snd st)))
           /\ (forall e, c = Uncaught e ->
                 w1 = snd (get_ai_move env (chess.fen (board (fst st)))
                                       (snd st)))
           /\ (c = Break \/ exists e, c = Uncaught e))
  \/ (awaiting_agent (fst st) = true
      /\ exists m,
           m ∈ chess.legal_moves (board (fst st))
           /\ agent_turn env st
              = (make_move env m
                   (fst st,
                    snd (get_ai_move env (chess.fen (board (fst st)))
                                     (snd st))), None)).
Proof.
  destruct st as [g w]. unfold agent_turn, awaiting_agent. simpl.
  destruct (Bool.eqb (chess.turn (board g)) chess.BLACK
            && negb (chess.is_game_over (board g))); [|now left].
  right.
  pose proof (get_ai_move_keeps_files env (chess.fen (board g)) w)
    as [Hwr Hsv].
  destruct (get_ai_move env (chess.fen (board g)) w) as [[[ai|]|e] w1];
    simpl in *.
  - destruct (String.eqb ai EmptyString).
    { left. split; [reflexivity|]. eexists _, _.
      repeat split; eauto; discriminate. }
    destruct (chess.from_uci ai) as [m|].
    + destruct (bool_decide (m ∈ chess.legal_moves (board g))) eqn:Hin.
      * right. split; [reflexivity|]. exists m.
        split; [now apply bool_decide_eq_true in Hin | reflexivity].
      * left. split; [reflexivity|]. eexists _, _.
        repeat split; eauto; discriminate.
    + left. split; [reflexivity|]. eexists _, _. repeat split; eauto.
  - left. split; [reflexivity|]. eexists _, _.
    repeat split; eauto; discriminate.
  - left. split; [reflexivity|]. eexists _, _. repeat split; eauto.
Qed.










End LoopProperties.

Section LoopProperties2.

Context {Board : Type} {E : chess.RulesEngine Board}.
Variable env : Env.

Implicit Types (st : State Board) (g : ChessGame Board).

Lemma record_extends_refl st : record_extends st st.
Proof. split; reflexivity. Qed.

Lemma record_extends_trans st1 st2 st3 :
  record_extends st1 st2 -> record_extends st2 st3 -> record_extends st1 st3.
Proof.
  intros [Hh1 Hp1] [Hh2 Hp2]. split; [congruence|].
  now transitivity (mainline (game (fst st2))).
Qed.

Lemma record_extends_make_move m st : record_extends st (make_move env m st).
Proof.
  destruct st as [g w]. split; simpl; [reflexivity|].
  now apply prefix_app_r.
Qed.

Lemma record_extends_handle_events evs st running :
  record_extends st (fst (handle_events env evs st running)).
Proof.
  destruct (handle_events_effect env evs st running) as (ms & Hg & _).
  split; rewrite Hg; simpl; [reflexivity | now apply prefix_app_r].
Qed.

Lemma record_extends_agent_turn st :
  record_extends st (fst (agent_turn env st)).
Proof.
  destruct (agent_turn_cases env st)
    as [[_ ->] | [(_ & w1 & c & -> & _) | (_ & m & _ & ->)]].
  - apply record_extends_refl.
  - split; reflexivity.
  - cbn [fst].
    apply (record_extends_trans _
             (fst st, snd (get_ai_move env (chess.fen (board (fst st)))
                                       (snd st))));
      [split; reflexivity | apply record_extends_make_move].
Qed.

Lemma game_over_check_self st running :
  fst (fst (game_over_check env st running)) = fst st.
Proof.
  destruct st as [g w]. unfold game_over_check.
  now destruct (chess.is_game_over (board g)).
Qed.

Lemma record_extends_frame evs st : record_extends st (fst (frame env evs st)).
Proof.
  unfold frame.
  pose proof (record_extends_handle_events evs st true) as H1.
  destruct (handle_events env evs st true) as [st1 running].
  pose proof (record_extends_agent_turn st1) as H2.
  destruct (agent_turn env st1) as [st2 [c|]];
    [now apply (record_extends_trans _ st1)|].
  pose proof (game_over_check_self st2 running) as H3.
  destruct (game_over_check env st2 running) as [st3 running'].
  simpl in *. apply (record_extends_trans _ st1); [exact H1|].
  apply (record_extends_trans _ st2); [exact H2|].
  split; rewrite H3; reflexivity.
Qed.

(** The record only grows at its end: after any run of the loop the
    headers are the ones the session started with and the moves it started
    with are the beginning of its line; no move is dropped or reordered. *)
Theorem main_loop_record_append_only
    (batches : list (list (pygame.Event * (Z * Z)))) (st : State Board) :
  record_extends st (fst (_main_loop env batches st)).
Proof.
  unfold _main_loop.
  apply (record_extends_trans _
           (fst st, logging INFO "Starting the game..." (snd st)));
    [split; reflexivity|].
  generalize (fst st, logging INFO "Starting the game..." (snd st)).
  clear st. induction batches as [|evs batches IH]; intros st; simpl;
    [apply record_extends_refl|].
  pose proof (record_extends_frame evs st) as H1.
  destruct (frame env evs st) as [st' []]; simpl in *; auto.
  apply (record_extends_trans _ st'); auto.
Qed.

(** One pass through the loop body sends at most one request, and sends
    one only if, after the events of the pass, Black is to move and the
    game is not over. *)
Theorem frame_sends_at_most_one_request
    (evs : list (pygame.Event * (Z * Z))) (st : State Board) :
  sent (snd (fst (frame env evs st))) = sent (snd st)
  \/ (awaiting_agent (fst (fst (handle_events env evs st true))) = true
      /\ exists r, sent (snd (fst (frame env evs st)))
                   = (sent (snd st) ++ [r])%list).
Proof.
  unfold frame.
  destruct (handle_events_effect env evs st true) as (_ & _ & _ & _ & Hs & _).
  destruct (handle_events env evs st true) as [st1 running]. simpl in *.
  rewrite <- Hs.
  assert (Hai :
    sent (snd (get_ai_move env (chess.fen (board (fst st1))) (snd st1)))
    = sent (snd st1)
    \/ exists r,
        sent (snd (get_ai_move env (chess.fen (board (fst st1))) (snd st1)))
        = (sent (snd st1) ++ [r])%list).
  { rewrite get_ai_move_sent.
    destruct (chess.from_fen _) as [b|]; [|left; apply app_nil_r].
    destruct (chess.legal_moves b); [left; apply app_nil_r | right; eauto]. }
  destruct (agent_turn_cases env st1)
    as [[_ ->] | [(Ha & w1 & c & -> & _ & _ & Hw1 & _) | (Ha & m & _ & ->)]].
  - left. destruct st1 as [g w]. unfold game_over_check.
    destruct (chess.is_game_over (board g)); simpl; [|reflexivity].
    apply save_game_counts.
  - simpl. rewrite Hw1. destruct Hai as [-> | [r ->]]; eauto.
  - assert (Hmm : sent (snd (make_move env m
                     (fst st1, snd (get_ai_move env
                        (chess.fen (board (fst st1))) (snd st1)))))
                  = sent (snd (get_ai_move env
                        (chess.fen (board (fst st1))) (snd st1)))).
    { unfold make_move. simpl. apply save_game_counts. }
    destruct (make_move env m _) as [g2 w2]. simpl in Hmm.
    assert (Hgo : sent (snd (fst (game_over_check env (g2, w2) running)))
                  = sent w2).
    { unfold game_over_check.
      destruct (chess.is_game_over (board g2)); simpl; [|reflexivity].
      apply save_game_counts. }
    destruct (game_over_check env (g2, w2) running) as [st3 running'].
    simpl in *. rewrite Hgo, Hmm. destruct Hai as [-> | [r ->]]; eauto.
Qed.

(** The move the agent gets to play is legal in the position it is played
    in: when the agent's turn goes through, one move of the board's legal
    moves has been pushed and recorded, and [save_game] has run once. *)
Theorem agent_move_is_legal (st st' : State Board) :
  awaiting_agent (fst st) = true ->
  agent_turn env st = (st', None) ->
  exists m,
    m ∈ chess.legal_moves (board (fst st))
    /\ board (fst st') = chess.push (board (fst st)) m
    /\ mainline (game (fst st')) = (mainline (game (fst st)) ++ [m])%list
    /\ saves (snd st') = S (saves (snd st)).
Proof.
  intros Ha Hr.
  destruct (agent_turn_cases env st)
    as [[Hf _] | [(_ & w1 & c & Hc & _) | (_ & m & Hin & Hm)]];
    [congruence | congruence |].
  rewrite Hm in Hr. injection Hr as <-. exists m.
  split; [exact Hin|]. unfold make_move. simpl. repeat split.
  destruct (save_game_counts env
    {| board := chess.push (board (fst st)) m;
       game := {| headers := headers (game (fst st));
                  mainline := mainline (game (fst st)) ++ [m] |};
       selected_square := selected_square (fst st);
       dragging := dragging (fst st); drag_piece := drag_piece (fst st);
       drag_pos := drag_pos (fst st); legal_moves := legal_moves (fst st) |}
    (snd (get_ai_move env (chess.fen (board (fst st))) (snd st)))) as [-> _].
  f_equal. apply get_ai_move_keeps_files.
Qed.

(** An exception that escapes [get_ai_move] escapes the loop: the pass
    ends at once, with the session as it was and no save. *)
Theorem uncaught_exception_ends_loop (st : State Board) (e : py.Exn) :
  awaiting_agent (fst st) = true ->
  fst (get_ai_move env (chess.fen (board (fst st))) (snd st)) = py.Raised e ->
  snd (agent_turn env st) = Some (Uncaught e)
  /\ fst (fst (agent_turn env st)) = fst st
  /\ saves (snd (fst (agent_turn env st))) = saves (snd st)
  /\ log (snd (fst (agent_turn env st)))
     = log (snd (get_ai_move env (chess.fen (board (fst st))) (snd st)))
  /\ forall evs rest st0,
       fst (handle_events env evs st0 true) = st ->
       loop env (evs :: rest) st0 = (fst (agent_turn env st), Uncaught e).
Proof.
  intros Ha Hraise.
  pose proof (get_ai_move_keeps_files env (chess.fen (board (fst st))) (snd st))
    as [_ Hsv].
  assert (Hagent :
    agent_turn env st
    = ((fst st, snd (get_ai_move env (chess.fen (board (fst st))) (snd st))),
       Some (Uncaught e))).
  { destruct st as [g w]. unfold agent_turn. simpl in *.
    unfold awaiting_agent in Ha. rewrite Ha.
    destruct (get_ai_move env (chess.fen (board g)) w) as [o w1].
    simpl in Hraise. now subst o. }
  rewrite Hagent. simpl. repeat split; auto.
  intros evs rest st0 Hev. unfold frame.
  destruct (handle_events env evs st0 true) as [st1 running].
  simpl in Hev. subst st1. now rewrite Hagent.
Qed.


(** Running the loop over two runs of batches is running it over the
    first and, if it is still going, over the second; once it has stopped
    the batches that follow are not looked at. *)
Theorem loop_app
    (bs1 bs2 : list (list (pygame.Event * (Z * Z)))) (st : State Board) :
  loop env (bs1 ++ bs2) st
  = match loop env bs1 st with
    | (st', Continue) => loop env bs2 st'
    | stop => stop
    end.
Proof.
  revert st. induction bs1 as [|evs bs1 IH]; intros st; simpl;
    [reflexivity|].
  destruct (frame env evs st) as [st' []]; auto.
Qed.

End LoopProperties2.

Section LoopProperties3.

Context {Board : Type} {E : chess.RulesEngine Board}.
Variable env : Env.

Implicit Types (st : State Board) (g : ChessGame Board).

Lemma agent_turn_not_awaiting st :
  awaiting_agent (fst st) = false -> agent_turn env st = (st, None).
Proof.
  destruct st as [g w]. unfold agent_turn, awaiting_agent. simpl.
  now intros ->.
Qed.

(** When the game is over after the events of a pass, no suggestion is
    asked for, [save_game] runs once more, the result is logged and the
    loop finishes; if that save succeeds, the last file written is the
    complete record. *)
Theorem game_over_saves_and_finishes
    (evs : list (pygame.Event * (Z * Z))) (st : State Board) :
  chess.is_game_over (board (fst (fst (handle_events env evs st true)))) = true ->
  let st1 := fst (handle_events env evs st true) in
  let st' := fst (frame env evs st) in
  snd (frame env evs st) = Finished
  /\ fst st' = fst st1
  /\ sent (snd st') = sent (snd st1)
  /\ saves (snd st') = S (saves (snd st1))
  /\ last (log (snd st'))
     = Some (INFO, "Game Over. Result: " +:+ chess.result (board (fst st1)))
  /\ (io_error env (saves (snd st1)) = None ->
      last (written (snd st'))
      = Some ("games/game_" +:+ now env (saves (snd st1)) +:+ ".pgn",
              game (fst st1))).
Proof.
  intros Hover st1 st'. unfold st', frame. fold st1.
  rewrite (surjective_pairing (handle_events env evs st true)). fold st1.
  assert (Ha : awaiting_agent (fst st1) = false)
    by (unfold awaiting_agent; fold st1 in Hover; rewrite Hover;
        apply andb_false_r).
  rewrite (agent_turn_not_awaiting st1 Ha).
  fold st1 in Hover. destruct st1 as [g w]. simpl in *.
  unfold game_over_check. rewrite Hover. simpl.
  destruct (save_game_counts env g w) as [-> ->].
  repeat split; [apply last_snoc|].
  intros Hio. unfold save_game. rewrite Hio. simpl. apply last_snoc.
Qed.

(** A pass of the loop that starts with a fresh selection and in which
    nothing is kept selected when the agent moves adds only legal moves:
    the moves it appends, the human's and the agent's, form a legal line
    from the board it started on, and the selection is fresh again. *)
Theorem frame_is_legal_when_nothing_is_selected
    (evs : list (pygame.Event * (Z * Z))) (st : State Board) :
  selection_fresh (fst st) ->
  legal_moves (fst (fst (handle_events env evs st true))) = ∅ ->
  exists ms,
    mainline (game (fst (fst (frame env evs st))))
    = (mainline (game (fst st)) ++ ms)%list
    /\ board (fst (fst (frame env evs st))) = pushes (board (fst st)) ms
    /\ legal_line (board (fst st)) ms = true
    /\ selection_fresh (fst (fst (frame env evs st))).
Proof.
  intros Hfresh Hempty. unfold frame.
  destruct (handle_events_effect env evs st true)
    as (ms1 & Hg1 & Hb1 & _ & _ & Hl1).
  destruct (Hl1 Hfresh) as [Hlegal1 Hfresh1]. clear Hl1.
  destruct (handle_events env evs st true) as [st1 running]. simpl in *.
  destruct (agent_turn_cases env st1)
    as [[_ ->] | [(_ & w1 & c & -> & _) | (_ & m & Hin & ->)]].
  - pose proof (game_over_check_self env st1 running) as Hself.
    destruct (game_over_check env st1 running) as [st3 running'].
    simpl in *. rewrite Hself. exists ms1. rewrite Hg1. now repeat split.
  - simpl. exists ms1. rewrite Hg1. now repeat split.
  - pose proof (game_over_check_self env
                  (make_move env m
                     (fst st1,
                      snd (get_ai_move env (chess.fen (board (fst st1)))
                                       (snd st1)))) running) as Hself.
    destruct (game_over_check env _ running) as [st3 running'].
    simpl in *. rewrite Hself. exists (ms1 ++ [m])%list. simpl.
    rewrite Hg1, Hb1. simpl. rewrite app_assoc. unfold pushes.
    rewrite fold_left_app. simpl. repeat split.
    + rewrite legal_line_app, Hlegal1. simpl. rewrite <- Hb1.
      now rewrite (bool_decide_eq_true_2 _ Hin).
    + intros m' Hm'. simpl in Hm'. rewrite Hempty in Hm'.
      now apply not_elem_of_empty in Hm'.
Qed.

End LoopProperties3.

(** ** The further properties on the transcript *)

Lemma new_session_selection_fresh :
  selection_fresh (fst Transcript.new_session).
Proof. intros m H. simpl in H. now apply not_elem_of_empty in H. Qed.


Lemma new_session_selection_coherent :
  selection_coherent (fst Transcript.new_session).
Proof. unfold selection_coherent. simpl. now repeat split. Qed.

Lemma selection_holds_moves_from_square_e2 :
  let env := Transcript.world [] None in
  let e2 := Transcript.at_square "e2" in
  let m := chess.Move_of 12 28 in
  m ∈ legal_moves (fst (handle_click env e2 e2 Transcript.new_session))
  <-> m ∈ chess.legal_moves (board (fst Transcript.new_session))
      /\ chess.from_square m = 12.
Proof.
  assert (Hsel : selected_square
                   (fst (handle_click (Transcript.world [] None)
                           (Transcript.at_square "e2")
                           (Transcript.at_square "e2")
                           Transcript.new_session)) = Some 12)
    by (vm_compute; reflexivity).
  exact (selection_holds_moves_from_square (Transcript.world [] None)
           (Transcript.at_square "e2") (Transcript.at_square "e2")
           Transcript.new_session 12 eq_refl Hsel (chess.Move_of 12 28)).
Defined.


(** The human plays 1. e4 and then Black's e7-e5, by hand. *)
Lemma events_apply_only_legal_moves_e4_e5 :
  let env := Transcript.world [] None in
  let evs := [Transcript.click "e2"; Transcript.release "e4";
              Transcript.click "e7"; Transcript.release "e5"] in
  exists ms,
    mainline (game (fst (fst (handle_events env evs Transcript.new_session true))))
    = (mainline (game (fst Transcript.new_session)) ++ ms)%list
    /\ board (fst (fst (handle_events env evs Transcript.new_session true)))
       = pushes (board (fst Transcript.new_session)) ms
    /\ legal_line (board (fst Transcript.new_session)) ms = true.
Proof.
  exact (events_apply_only_legal_moves (Transcript.world [] None)
           [Transcript.click "e2"; Transcript.release "e4";
            Transcript.click "e7"; Transcript.release "e5"]
           Transcript.new_session true new_session_selection_fresh).
Defined.

Lemma selection_stays_coherent_opening :
  selection_coherent
    (fst (fst (handle_events (Transcript.world [] None)
                 [Transcript.click "e2"; Transcript.release "e4";
                  Transcript.click "e7"]
                 Transcript.new_session true))).
Proof.
  exact (selection_stays_coherent (Transcript.world [] None)
           [Transcript.click "e2"; Transcript.release "e4";
            Transcript.click "e7"]
           Transcript.new_session true new_session_selection_coherent).
Defined.

Lemma get_ai_move_returns_only_legal_moves_e7e5 :
  exists b, chess.from_fen (Transcript.fen_of Transcript.After_e4) = Some b
            /\ "e7e5" ∈ map chess.uci (chess.legal_moves b).
Proof.
  apply (get_ai_move_returns_only_legal_moves
           (Transcript.world [Transcript.says "e7e5"] None)
           (Transcript.fen_of Transcript.After_e4) fresh_world "e7e5").
  vm_compute. reflexivity.
Defined.

Lemma after_e4_has_moves : chess.legal_moves Transcript.After_e4 <> [].
Proof. vm_compute. discriminate. Qed.

Lemma get_ai_move_raises_on_blank_text_spaces :
  let env := Transcript.world [Transcript.says "  "] None in
  let fen := Transcript.fen_of Transcript.After_e4 in
  (fst (get_ai_move env fen fresh_world) = py.Raised py.IndexError
   <-> all_space "  " = true)
  /\ (all_space "  " = false ->
      exists r, fst (get_ai_move env fen fresh_world) = py.Returned r).
Proof.
  exact (get_ai_move_raises_on_blank_text
           (Transcript.world [Transcript.says "  "] None)
           (Transcript.fen_of Transcript.After_e4) Transcript.After_e4
           fresh_world "  " eq_refl after_e4_has_moves eq_refl).
Defined.

Lemma get_ai_move_raises_on_non_text_list :
  let env :=
    Transcript.world [requests.Response 200 requests.JsonOther] None in
  let fen := Transcript.fen_of Transcript.After_e4 in
  fst (get_ai_move env fen fresh_world) = py.Raised py.AttributeError
  /\ log (snd (get_ai_move env fen fresh_world)) = log fresh_world.
Proof.
  exact (get_ai_move_raises_on_non_text
           (Transcript.world [requests.Response 200 requests.JsonOther] None)
           (Transcript.fen_of Transcript.After_e4) Transcript.After_e4
           fresh_world requests.JsonOther eq_refl after_e4_has_moves eq_refl
           (or_introl eq_refl)).
Defined.

Lemma get_ai_move_logs_every_rejection_timeout :
  let env := Transcript.world [] None in
  let fen := Transcript.fen_of Transcript.After_e4 in
  fst (get_ai_move env fen fresh_world) = py.Returned None
  /\ exists msg,
       last (log (snd (get_ai_move env fen fresh_world))) = Some (ERROR, msg).
Proof.
  exact (get_ai_move_logs_every_rejection (Transcript.world [] None)
           (Transcript.fen_of Transcript.After_e4) Transcript.After_e4
           fresh_world eq_refl after_e4_has_moves eq_refl).
Defined.


Lemma agent_move_is_legal_d7d5 :
  let env := Transcript.world [Transcript.says "d7d5"] None in
  let st : State Transcript.Pos :=
    fst (handle_events env [Transcript.click "e2"; Transcript.release "e4"]
           Transcript.new_session true) in
  let st' := fst (agent_turn env st) in
  exists m,
    m ∈ chess.legal_moves (board (fst st))
    /\ board (fst st') = chess.push (board (fst st)) m
    /\ mainline (game (fst st')) = (mainline (game (fst st)) ++ [m])%list
    /\ saves (snd st') = S (saves (snd st)).
Proof.
  apply (agent_move_is_legal (Transcript.world [Transcript.says "d7d5"] None)).
  - vm_compute. reflexivity.
  - vm_compute. reflexivity.
Defined.

Lemma uncaught_exception_ends_loop_blank :
  let env := Transcript.world [Transcript.says " "] None in
  let st : State Transcript.Pos :=
    fst (handle_events env [Transcript.click "e2"; Transcript.release "e4"]
           Transcript.new_session true) in
  snd (agent_turn env st) = Some (Uncaught py.IndexError)
  /\ fst (fst (agent_turn env st)) = fst st
  /\ saves (snd (fst (agent_turn env st))) = saves (snd st)
  /\ log (snd (fst (agent_turn env st)))
     = log (snd (get_ai_move env (chess.fen (board (fst st))) (snd st)))
  /\ forall evs rest st0,
       fst (handle_events env evs st0 true) = st ->
       loop env (evs :: rest) st0
       = (fst (agent_turn env st), Uncaught py.IndexError).
Proof.
  apply (uncaught_exception_ends_loop
           (Transcript.world [Transcript.says " "] None)).
  - vm_compute. reflexivity.
  - vm_compute. reflexivity.
Defined.

Lemma game_over_saves_and_finishes_fools_mate :
  let env := Transcript.world [] None in
  let st : State Transcript.Pos :=
    (idle_on Transcript.Fools_mate {| headers := []; mainline := [] |},
     fresh_world) in
  let st1 := fst (handle_events env [] st true) in
  let st' := fst (frame env [] st) in
  snd (frame env [] st) = Finished
  /\ fst st' = fst st1
  /\ sent (snd st') = sent (snd st1)
  /\ saves (snd st') = S (saves (snd st1))
  /\ last (log (snd st'))
     = Some (INFO, "Game Over. Result: " +:+ chess.result (board (fst st1)))
  /\ (io_error env (saves (snd st1)) = None ->
      last (written (snd st'))
      = Some ("games/game_" +:+ now env (saves (snd st1)) +:+ ".pgn",
              game (fst st1))).
Proof.
  apply (game_over_saves_and_finishes (Transcript.world [] None) []
           (idle_on Transcript.Fools_mate {| headers := []; mainline := [] |},
            fresh_world)).
  reflexivity.
Defined.

Lemma frame_is_legal_when_nothing_is_selected_e4_d5 :
  let env := Transcript.world [Transcript.says "d7d5"] None in
  let evs := [Transcript.click "e2"; Transcript.release "e4"] in
  exists ms,
    mainline (game (fst (fst (frame env evs Transcript.new_session))))
    = (mainline (game (fst Transcript.new_session)) ++ ms)%list
    /\ board (fst (fst (frame env evs Transcript.new_session)))
       = pushes (board (fst Transcript.new_session)) ms
    /\ legal_line (board (fst Transcript.new_session)) ms = true
    /\ selection_fresh (fst (fst (frame env evs Transcript.new_session))).
Proof.
  apply (frame_is_legal_when_nothing_is_selected
           (Transcript.world [Transcript.says "d7d5"] None)
           [Transcript.click "e2"; Transcript.release "e4"]
           Transcript.new_session new_session_selection_fresh).
  vm_compute. reflexivity.
Defined.

(** ** Piece images *)

Lemma string_app_inv_head (a x y : string) : a +:+ x = a +:+ y -> x = y.
Proof. induction a as [|c a IH]; simpl; [auto|]. intros [= H]. auto. Qed.

Lemma string_app_assoc (a b c : string) : (a +:+ b) +:+ c = a +:+ (b +:+ c).
Proof.
  induction a as [|x a IH]; [reflexivity|].
  change (String x ((a +:+ b) +:+ c) = String x (a +:+ (b +:+ c))).
  now rewrite IH.
Qed.

(** Two names that do not start with a slash are joined to different
    paths in the same directory. *)
Lemma path_join_inj (d f1 f2 : string) :
  String.prefix "/" f1 = false -> String.prefix "/" f2 = false ->
  os.path_join d f1 = os.path_join d f2 -> f1 = f2.
Proof.
  unfold os.path_join. intros -> ->.
  destruct (String.eqb d EmptyString || endswith d "/").
  - apply string_app_inv_head.
  - rewrite ?string_app_assoc. intros H.
    apply string_app_inv_head in H. now apply string_app_inv_head in H.
Qed.

Section AssetProperties.

Variable env : AssetEnv.

Lemma download_one_keeps_files dir color piece w p c :
  files (disk w) !! p = Some c ->
  files (disk (snd (download_one env dir color piece w))) !! p = Some c.
Proof.
  intros Hp. unfold download_one.
  destruct (path_exists (disk w) _) eqn:Hex; [exact Hp|].
  destruct (get env _ _) as [e|sc he content]; [exact Hp|].
  destruct ((400 <=? sc) && (sc <? 600)); [exact Hp|]. simpl.
  rewrite lookup_insert_ne; [exact Hp|]. intros <-.
  unfold path_exists in Hex. apply orb_false_iff in Hex as [Hex _].
  apply bool_decide_eq_false in Hex. apply Hex. now rewrite Hp.
Qed.

Lemma download_all_keeps_files dir todo w p c :
  files (disk w) !! p = Some c ->
  files (disk (snd (download_all env dir todo w))) !! p = Some c.
Proof.
  revert w. induction todo as [|[color piece] todo IH]; intros w Hp; simpl;
    [exact Hp|].
  pose proof (download_one_keeps_files dir color piece w p c Hp) as H1.
  destruct (download_one env dir color piece w) as [[e|] w1]; auto.
Qed.

(** [download_chess_pieces] never overwrites: a file that is on the disk
    when it starts is there with the same content when it ends, whether it
    ends normally or by raising. *)
Theorem download_never_overwrites (here : string) (w : AssetWorld)
    (p c : string) :
  files (disk w) !! p = Some c ->
  files (disk (snd (download_chess_pieces env here w))) !! p = Some c.
Proof.
  intros Hp. unfold download_chess_pieces.
  apply download_all_keeps_files.
  now destruct (path_exists (disk w) _).
Qed.

Lemma download_all_nothing_to_do dir todo w :
  forallb (fun cp => path_exists (disk w)
                       (os.path_join dir (piece_filename (fst cp) (snd cp))))
          todo = true ->
  download_all env dir todo w = (None, w).
Proof.
  induction todo as [|[color piece] todo IH]; simpl; [reflexivity|].
  intros H. apply andb_true_iff in H as [H1 H2].
  unfold download_one. rewrite H1. auto.
Qed.

(** When the assets folder and the twelve image files exist,
    [download_chess_pieces] returns at once: it sends no request, writes
    nothing and logs nothing. *)
Theorem download_skips_existing_files (here : string) (w : AssetWorld) :
  path_exists (disk w) (os.path_join here "assets") = true ->
  forallb (fun cp => path_exists (disk w)
                       (asset_path here (piece_filename (fst cp) (snd cp))))
          all_pieces = true ->
  download_chess_pieces env here w = (None, w).
Proof.
  intros Hdir Hall. unfold download_chess_pieces. rewrite Hdir.
  now apply download_all_nothing_to_do.
Qed.

Lemma download_one_exists_mono dir color piece w p :
  path_exists (disk w) p = true ->
  path_exists (disk (snd (download_one env dir color piece w))) p = true.
Proof.
  intros Hp. unfold download_one.
  destruct (path_exists (disk w)
              (os.path_join dir (piece_filename color piece))) eqn:Hex;
    [exact Hp|].
  destruct (get env _ _) as [e|sc he content]; [exact Hp|].
  destruct ((400 <=? sc) && (sc <? 600)); [exact Hp|]. simpl.
  unfold path_exists in *. simpl. apply orb_true_iff in Hp as [Hp | Hp].
  - apply bool_decide_eq_true in Hp. apply orb_true_iff. left.
    apply bool_decide_eq_true. destruct Hp as [c Hc].
    destruct (decide (os.path_join dir (piece_filename color piece) = p))
      as [-> | Hne];
      [rewrite lookup_insert_eq | rewrite lookup_insert_ne by exact Hne];
      eauto.
  - rewrite Hp. apply orb_true_r.
Qed.

Lemma download_all_exists_mono dir todo w p :
  path_exists (disk w) p = true ->
  path_exists (disk (snd (download_all env dir todo w))) p = true.
Proof.
  revert w. induction todo as [|[color piece] todo IH]; intros w Hp; simpl;
    [exact Hp|].
  pose proof (download_one_exists_mono dir color piece w p Hp) as H1.
  destruct (download_one env dir color piece w) as [[e|] w1]; auto.
Qed.

Lemma download_one_done dir color piece w w1 :
  download_one env dir color piece w = (None, w1) ->
  path_exists (disk w1) (os.path_join dir (piece_filename color piece)) = true.
Proof.
  unfold download_one.
  destruct (path_exists (disk w) _) eqn:Hex; [now intros [= <-]|].
  destruct (get env _ _) as [e|sc he content]; [discriminate|].
  destruct ((400 <=? sc) && (sc <? 600)); [discriminate|].
  intros [= <-]. unfold path_exists. simpl. rewrite lookup_insert_eq.
  reflexivity.
Qed.

Lemma download_all_done dir todo w w' :
  download_all env dir todo w = (None, w') ->
  forallb (fun cp => path_exists (disk w')
                       (os.path_join dir (piece_filename (fst cp) (snd cp))))
          todo = true.
Proof.
  revert w. induction todo as [|[color piece] todo IH]; intros w; simpl;
    [reflexivity|].
  destruct (download_one env dir color piece w) as [[e|] w1] eqn:H1;
    [discriminate|].
  intros H. rewrite (IH w1 H), andb_true_r.
  apply download_one_done in H1.
  pose proof (download_all_exists_mono dir todo w1 _ H1) as Hm.
  now rewrite H in Hm.
Qed.

(** When [download_chess_pieces] returns normally, every one of the
    twelve image files exists. *)
Theorem download_provides_all_files (here : string) (w w' : AssetWorld) :
  download_chess_pieces env here w = (None, w') ->
  forallb (fun cp => path_exists (disk w')
                       (asset_path here (piece_filename (fst cp) (snd cp))))
          all_pieces = true.
Proof. unfold download_chess_pieces. apply download_all_done. Qed.

End AssetProperties.

Section LoadProperties.

Variable env : AssetEnv.

Lemma load_all_disk dir todo loaded w :
  disk (snd (load_all env dir todo loaded w)) = disk w.
Proof.
  revert loaded. induction todo as [|[symbol filename] todo IH];
    intros loaded; simpl; [reflexivity|].
  destruct (path_exists (disk w) _); [|reflexivity].
  destruct (load_error env _); [reflexivity | apply IH].
Qed.

Lemma load_all_finds_files dir todo loaded w msg :
  Forall (fun fn => path_exists (disk w) (os.path_join dir fn) = true)
         (List.map snd todo) ->
  fst (fst (load_all env dir todo loaded w)) <> Some (FileNotFoundError msg).
Proof.
  revert loaded. induction todo as [|[symbol filename] todo IH];
    intros loaded H; simpl; [discriminate|].
  simpl in H. apply Forall_cons in H as [H1 H2]. rewrite H1.
  destruct (load_error env _); [discriminate | now apply IH].
Qed.

Lemma load_all_keys dir todo loaded w :
  fst (fst (load_all env dir todo loaded w)) = None ->
  forall symbol,
    symbol ∈ List.map fst todo \/ is_Some (loaded !! symbol) ->
    is_Some (snd (fst (load_all env dir todo loaded w)) !! symbol).
Proof.
  revert loaded. induction todo as [|[sym filename] todo IH];
    intros loaded Hok symbol Hin; simpl in *.
  - destruct Hin as [Hin | Hin]; [now apply elem_of_nil in Hin | exact Hin].
  - destruct (path_exists (disk w) _); [|discriminate].
    destruct (load_error env _); [discriminate|].
    apply IH; [exact Hok|].
    destruct Hin as [Hin | Hin].
    + apply elem_of_cons in Hin as [-> | Hin]; [right | now left].
      rewrite lookup_insert_eq. eauto.
    + right. destruct (decide (sym = symbol)) as [-> | Hne];
        [rewrite lookup_insert_eq | rewrite lookup_insert_ne by exact Hne];
        eauto.
Qed.

(** The names [_load_pieces] looks for are names [download_chess_pieces]
    writes. *)
Lemma piece_files_are_downloaded :
  Forall (fun fn =>
            fn ∈ List.map (fun cp => piece_filename (fst cp) (snd cp))
                          all_pieces)
         (List.map snd piece_files).
Proof. apply (bool_decide_unpack _). vm_compute. exact I. Qed.

Lemma makedirs_keeps p q d :
  path_exists d q = true -> path_exists (makedirs p d) q = true.
Proof.
  unfold path_exists, makedirs. simpl. intros H.
  apply orb_true_iff in H as [H | H]; apply orb_true_iff; [now left|].
  right. apply bool_decide_eq_true in H. apply bool_decide_eq_true.
  set_solver.
Qed.

(** After a download that returned normally, [_load_pieces] misses no
    file: it does not raise [FileNotFoundError]. *)
Theorem load_after_download_finds_every_file
    (here : string) (w w' : AssetWorld) (msg : string) :
  download_chess_pieces env here w = (None, w') ->
  fst (fst (_load_pieces env here w')) <> Some (FileNotFoundError msg).
Proof.
  intros Hd. unfold download_chess_pieces in Hd.
  apply download_all_done in Hd.
  assert (Hall : Forall
            (fun fn => path_exists (disk w')
                         (os.path_join (os.path_join here "assets") fn) = true)
            (List.map snd piece_files)).
  { eapply Forall_impl; [apply piece_files_are_downloaded|].
    intros fn Hfn. apply list_elem_of_In, in_map_iff in Hfn
      as ([color piece] & <- & Hcp).
    rewrite forallb_forall in Hd. exact (Hd _ Hcp). }
  unfold _load_pieces.
  set (w0 := if path_exists (disk w') (os.path_join here "assets") then w'
             else {| disk := makedirs (os.path_join here "assets") (disk w');
                     fetched := fetched w'; asset_log := asset_log w' |}).
  assert (Hall0 : Forall
            (fun fn => path_exists (disk w0)
                         (os.path_join (os.path_join here "assets") fn) = true)
            (List.map snd piece_files)).
  { unfold w0. destruct (path_exists (disk w') (os.path_join here "assets"));
      [exact Hall|].
    eapply Forall_impl; [exact Hall|]. intros fn. apply makedirs_keeps. }
  pose proof (load_all_finds_files (os.path_join here "assets") piece_files
                ∅ w0 msg Hall0) as Hno.
  destruct (load_all env (os.path_join here "assets") piece_files ∅ w0)
    as [[[e|] loaded] w1]; simpl in *; [|discriminate].
  intros [= He]. apply Hno. now rewrite He.
Qed.

(** When [_load_pieces] returns normally, [self.pieces] holds an image for
    the symbol of every piece of either colour, so looking one up by
    [piece.symbol()] cannot fail. *)
Theorem loaded_pieces_cover_every_symbol
    (here : string) (w : AssetWorld) (p : chess.Piece) :
  fst (fst (_load_pieces env here w)) = None ->
  is_Some (snd (fst (_load_pieces env here w)) !! chess.symbol p).
Proof.
  unfold _load_pieces.
  set (w0 := if path_exists (disk w) (os.path_join here "assets") then w
             else {| disk := makedirs (os.path_join here "assets") (disk w);
                     fetched := fetched w; asset_log := asset_log w |}).
  pose proof (load_all_keys (os.path_join here "assets") piece_files ∅ w0)
    as Hkeys.
  destruct (load_all env (os.path_join here "assets") piece_files ∅ w0)
    as [[[e|] loaded] w1]; simpl in *; [discriminate|].
  intros _. apply Hkeys; [reflexivity|]. left.
  destruct p as [[] []]; apply (bool_decide_unpack _); vm_compute; exact I.
Qed.

End LoadProperties.

Lemma string_app_self (a x : string) : a +:+ x = a -> x = EmptyString.
Proof.
  induction a as [|c a IH]; [auto|].
  change (String c (a +:+ x) = String c a -> x = EmptyString).
  intros [= H]. auto.
Qed.

Lemma path_join_not_dir (d f : string) :
  String.prefix "/" f = false -> f <> EmptyString -> os.path_join d f <> d.
Proof.
  unfold os.path_join. intros -> Hf.
  destruct (String.eqb d EmptyString || endswith d "/"); intros H;
    apply string_app_self in H; [auto | discriminate].
Qed.

Section KnightAndKing.

Variable env : AssetEnv.
Variable serve : string -> GetResult.
Hypothesis consistent : forall n url, get env n url = serve url.

Lemma download_one_other_path dir color piece w q :
  path_exists (disk w) q = false ->
  q <> os.path_join dir (piece_filename color piece) ->
  path_exists (disk (snd (download_one env dir color piece w))) q = false.
Proof.
  intros Hq Hne. unfold download_one.
  destruct (path_exists (disk w)
              (os.path_join dir (piece_filename color piece))); [exact Hq|].
  destruct (get env _ _) as [e|sc he content]; [exact Hq|].
  destruct ((400 <=? sc) && (sc <? 600)); [exact Hq|]. simpl.
  unfold path_exists in *. simpl.
  rewrite lookup_insert_ne by congruence. exact Hq.
Qed.

Lemma download_one_content dir color piece w w1 :
  path_exists (disk w) (os.path_join dir (piece_filename color piece)) = false ->
  download_one env dir color piece w = (None, w1) ->
  exists sc he content,
    serve (piece_url color piece) = GetResponse sc he content
    /\ files (disk w1) !! os.path_join dir (piece_filename color piece)
       = Some content.
Proof.
  intros Hex. unfold download_one. rewrite Hex, consistent.
  destruct (serve (piece_url color piece)) as [e|sc he content];
    [discriminate|].
  destruct ((400 <=? sc) && (sc <? 600)); [discriminate|].
  intros [= <-]. exists sc, he, content. split; [reflexivity|].
  simpl. apply lookup_insert_eq.
Qed.

Lemma download_all_content dir todo w w' color piece :
  (forall cp1 cp2, cp1 ∈ todo -> cp2 ∈ todo ->
     os.path_join dir (piece_filename (fst cp1) (snd cp1))
     = os.path_join dir (piece_filename (fst cp2) (snd cp2)) -> cp1 = cp2) ->
  download_all env dir todo w = (None, w') ->
  (color, piece) ∈ todo ->
  path_exists (disk w) (os.path_join dir (piece_filename color piece)) = false ->
  exists sc he content,
    serve (piece_url color piece) = GetResponse sc he content
    /\ files (disk w') !! os.path_join dir (piece_filename color piece)
       = Some content.
Proof.
  revert w. induction todo as [|[c0 p0] todo IH]; intros w Hinj Hd Hin Hex.
  - now apply elem_of_nil in Hin.
  - simpl in Hd.
    destruct (download_one env dir c0 p0 w) as [[e|] w1] eqn:H1;
      [discriminate|].
    destruct (decide ((color, piece) = (c0, p0))) as [[= -> ->] | Hne].
    + destruct (download_one_content dir c0 p0 w w1 Hex H1)
        as (sc & he & content & Hs & Hf).
      exists sc, he, content. split; [exact Hs|].
      pose proof (download_all_keeps_files env dir todo w1 _ _ Hf) as Hk.
      now rewrite Hd in Hk.
    + apply elem_of_cons in Hin as [Heq | Hin]; [contradiction|].
      apply (IH w1); auto.
      * intros cp1 cp2 H2 H3. apply Hinj; now apply list_elem_of_further.
      * replace w1 with (snd (download_one env dir c0 p0 w))
          by now rewrite H1.
        apply download_one_other_path; [exact Hex|].
        intros Hp. apply Hne.
        apply (Hinj (color, piece) (c0, p0));
          [now apply list_elem_of_further | apply list_elem_of_here | exact Hp].
Qed.

Lemma all_pieces_paths_differ dir cp1 cp2 :
  cp1 ∈ all_pieces -> cp2 ∈ all_pieces ->
  os.path_join dir (piece_filename (fst cp1) (snd cp1))
  = os.path_join dir (piece_filename (fst cp2) (snd cp2)) -> cp1 = cp2.
Proof.
  intros H1 H2 Hp.
  assert (Hrel : Forall (fun cp =>
            String.prefix "/" (piece_filename (fst cp) (snd cp)) = false)
            all_pieces)
    by (apply (bool_decide_unpack _); vm_compute; exact I).
  rewrite Forall_forall in Hrel.
  apply path_join_inj in Hp; [| now apply Hrel | now apply Hrel].
  assert (Hinj : Forall (fun a => Forall (fun b =>
            piece_filename (fst a) (snd a) = piece_filename (fst b) (snd b)
            -> a = b) all_pieces) all_pieces)
    by (apply (bool_decide_unpack _); vm_compute; exact I).
  rewrite Forall_forall in Hinj. specialize (Hinj cp1 H1).
  rewrite Forall_forall in Hinj. exact (Hinj cp2 H2 Hp).
Qed.

(** [piece[0]] is the same letter for the knight and the king, so both are
    fetched from one URL. When the server answers a URL the same way each
    time and neither file of a colour was there, a download that returns
    normally leaves the knight's file with the content of the king's. *)
Theorem knight_image_is_the_kings
    (here : string) (w w' : AssetWorld) (color : string) :
  color ∈ colors ->
  path_exists (disk w) (asset_path here (piece_filename color "knight")) = false ->
  path_exists (disk w) (asset_path here (piece_filename color "king")) = false ->
  download_chess_pieces env here w = (None, w') ->
  piece_url color "knight" = piece_url color "king"
  /\ is_Some (files (disk w') !! asset_path here (piece_filename color "knight"))
  /\ files (disk w') !! asset_path here (piece_filename color "knight")
     = files (disk w') !! asset_path here (piece_filename color "king").
Proof.
  intros Hc Hn Hk Hd. unfold download_chess_pieces in Hd.
  set (dir := os.path_join here "assets") in *.
  set (w0 := if path_exists (disk w) dir then w
             else {| disk := makedirs dir (disk w); fetched := fetched w;
                     asset_log := asset_log w |}) in *.
  assert (Hurl : piece_url color "knight" = piece_url color "king")
    by (unfold piece_url, piece_char; reflexivity).
  assert (Hin : (color, "knight") ∈ all_pieces /\ (color, "king") ∈ all_pieces).
  { apply elem_of_cons in Hc as [-> | Hc];
      [|apply list_elem_of_singleton in Hc as ->];
      split; apply (bool_decide_unpack _); vm_compute; exact I. }
  destruct Hin as [Hin_n Hin_k].
  assert (Hkeep : forall fn,
            String.prefix "/" fn = false -> fn <> EmptyString ->
            path_exists (disk w) (os.path_join dir fn) = false ->
            path_exists (disk w0) (os.path_join dir fn) = false).
  { intros fn Hrel Hne Hex. unfold w0.
    destruct (path_exists (disk w) dir); [exact Hex|].
    unfold path_exists, makedirs in *. simpl.
    apply orb_false_iff in Hex as [Hf Hdirs]. rewrite Hf. simpl.
    apply bool_decide_eq_false. apply bool_decide_eq_false in Hdirs.
    intros Hu. apply elem_of_union in Hu as [Hu | Hu]; [|contradiction].
    apply elem_of_singleton in Hu.
    now apply (path_join_not_dir dir fn Hrel Hne). }
  assert (Hn0 : path_exists (disk w0)
                  (os.path_join dir (piece_filename color "knight")) = false).
  { apply Hkeep; [| |exact Hn].
    - apply elem_of_cons in Hc as [-> | Hc];
        [|apply list_elem_of_singleton in Hc as ->]; reflexivity.
    - apply elem_of_cons in Hc as [-> | Hc];
        [|apply list_elem_of_singleton in Hc as ->]; discriminate. }
  assert (Hk0 : path_exists (disk w0)
                  (os.path_join dir (piece_filename color "king")) = false).
  { apply Hkeep; [| |exact Hk].
    - apply elem_of_cons in Hc as [-> | Hc];
        [|apply list_elem_of_singleton in Hc as ->]; reflexivity.
    - apply elem_of_cons in Hc as [-> | Hc];
        [|apply list_elem_of_singleton in Hc as ->]; discriminate. }
  destruct (download_all_content dir all_pieces w0 w' color "knight"
              (all_pieces_paths_differ dir) Hd Hin_n Hn0)
    as (sc1 & he1 & c1 & Hs1 & Hf1).
  destruct (download_all_content dir all_pieces w0 w' color "king"
              (all_pieces_paths_differ dir) Hd Hin_k Hk0)
    as (sc2 & he2 & c2 & Hs2 & Hf2).
  split; [exact Hurl|]. unfold asset_path. fold dir.
  rewrite Hf1, Hf2. split; [eauto|].
  rewrite Hurl, Hs2 in Hs1. now injection Hs1 as _ _ ->.
Qed.

End KnightAndKing.

(** ** The games folder *)

Lemma string_length_app (a b : string) :
  String.length (a +:+ b) = (String.length a + String.length b)%nat.
Proof.
  induction a as [|c a IH]; [reflexivity|].
  change (S (String.length (a +:+ b))
          = S (String.length a + String.length b)). now rewrite IH.
Qed.

Lemma substring_all (s : string) : String.substring 0 (String.length s) s = s.
Proof. induction s as [|c s IH]; simpl; [reflexivity | now rewrite IH]. Qed.

Lemma substring_skip (a b : string) (k : nat) :
  String.substring (String.length a) k (a +:+ b) = String.substring 0 k b.
Proof. induction a as [|c a IH]; [reflexivity | exact IH]. Qed.

Lemma endswith_app (a suffix : string) : endswith (a +:+ suffix) suffix = true.
Proof.
  unfold endswith. rewrite string_length_app.
  replace (String.length a + String.length suffix - String.length suffix)%nat
    with (String.length a) by lia.
  rewrite substring_skip, substring_all, String.eqb_refl, andb_true_r.
  apply Nat.leb_le. lia.
Qed.

(** The file [save_game] writes is [game_file_name] of the clock reading,
    in the folder [games]. *)
Lemma save_game_writes_game_file_name
    {Board : Type} (senv : Env) (g : ChessGame Board) (w : World) :
  io_error senv (saves w) = None ->
  last (written (save_game senv g w))
  = Some (os.path_join "games" (game_file_name (now senv (saves w))), game g).
Proof.
  intros Hio. unfold save_game. rewrite Hio. simpl. apply last_snoc.
Qed.

Section GamesFolder.

Variable env : AssetEnv.

Lemma clear_files_result names lg :
  fst (clear_files env names lg)
  = List.filter (fun f => negb (endswith f ".pgn")
                          || bool_decide (is_Some (remove_error env f))) names
  /\ length (snd (clear_files env names lg))
     = (length lg + length (List.filter (fun f => endswith f ".pgn") names))%nat.
Proof.
  revert lg. induction names as [|f names IH]; intros lg; simpl;
    [split; [reflexivity | lia]|].
  destruct (endswith f ".pgn"); simpl.
  - destruct (remove_error env f) as [e|]; simpl.
    + destruct (IH (lg ++ [(ERROR, "Error removing file " +:+ f +:+ ": "
                                   +:+ e)])%list) as [H1 H2].
      destruct (clear_files env names _) as [kept lg']. simpl in *.
      rewrite H1, H2, length_app. simpl. split; [reflexivity | lia].
    + destruct (IH (lg ++ [(INFO, "Removed previous game file: " +:+ f)])%list)
        as [H1 H2].
      rewrite H1, H2, length_app. simpl. split; [reflexivity | lia].
  - destruct (IH lg) as [H1 H2].
    destruct (clear_files env names lg) as [kept lg']. simpl in *.
    rewrite H1, H2. split; [reflexivity | lia].
Qed.

(** [_clear_games_folder] removes from the folder exactly the names that
    end in [.pgn] and whose removal does not fail: every other name stays,
    in its place; and it logs one line for every name ending in [.pgn]. *)
Theorem clear_games_folder_keeps_the_rest
    (names : list string) (lg : list (Level * string)) :
  listdir_error env = None ->
  fst (_clear_games_folder env (Some names) lg)
  = Some (List.filter
            (fun f => negb (endswith f ".pgn")
                      || bool_decide (is_Some (remove_error env f))) names)
  /\ length (snd (_clear_games_folder env (Some names) lg))
     = (length lg + length (List.filter (fun f => endswith f ".pgn") names))%nat.
Proof.
  intros Hl. unfold _clear_games_folder. rewrite Hl.
  destruct (clear_files_result names lg) as [H1 H2].
  destruct (clear_files env names lg) as [kept lg']. simpl in *.
  now rewrite H1, H2.
Qed.

(** A file written by [save_game] has a name that [_clear_games_folder]
    takes for a game file: if it is in the folder and its removal does not
    fail, it is gone afterwards. *)
Theorem clear_games_folder_removes_saved_games
    (names kept : list string) (lg : list (Level * string)) (stamp : string) :
  listdir_error env = None ->
  remove_error env (game_file_name stamp) = None ->
  fst (_clear_games_folder env (Some names) lg) = Some kept ->
  ~ In (game_file_name stamp) kept.
Proof.
  intros Hl Hr Hk.
  destruct (clear_files_result names lg) as [H1 _].
  unfold _clear_games_folder in Hk. rewrite Hl in Hk.
  destruct (clear_files env names lg) as [kept' lg']. simpl in *.
  injection Hk as <-. rewrite H1. intros Hin.
  apply filter_In in Hin as [_ Hin].
  unfold game_file_name in Hin at 1.
  change ("game_" +:+ stamp +:+ ".pgn")
    with (String "g" (String "a" (String "m" (String "e" (String "_"
            (stamp +:+ ".pgn")))))) in Hin.
  change (String "g" (String "a" (String "m" (String "e" (String "_"
            (stamp +:+ ".pgn"))))))
    with (("game_" +:+ stamp) +:+ ".pgn") in Hin.
  rewrite endswith_app, Hr in Hin. discriminate Hin.
Qed.

End GamesFolder.

(** ** Drawing *)

Lemma grid_has_no_highlight (p : Z * Z) :
  ~ In (Highlight p)
       (flat_map
          (fun row =>
             List.map
               (fun col =>
                  Rect (if (row + col) mod 2 =? 0 then WHITE else BROWN)
                       (col * SQUARE_SIZE) (row * SQUARE_SIZE)
                       SQUARE_SIZE SQUARE_SIZE)
               range8)
          range8).
Proof.
  intros H. apply in_flat_map in H as (row & _ & H).
  apply in_map_iff in H as (col & H & _). discriminate.
Qed.

Section Drawing.

Context {Board : Type} {E : chess.RulesEngine Board}.
Variable env : Env.

(** After a click has selected a square, [draw_board] highlights exactly
    the squares a legal move takes the piece on that square to. *)
Theorem draw_board_highlights_destinations
    (cursor pos : Z * Z) (st : State Board) (sq : chess.Square) (p : Z * Z) :
  selected_square (fst st) = None ->
  selected_square (fst (handle_click env cursor pos st)) = Some sq ->
  In (Highlight p) (draw_board (fst (handle_click env cursor pos st)))
  <-> exists m, m ∈ chess.legal_moves (board (fst st))
                /\ chess.from_square m = sq
                /\ p = square_to_pos (chess.to_square m).
Proof.
  intros Hs Hsel.
  destruct (handle_click_select env cursor pos st sq Hs Hsel) as (pc & _ & ->).
  unfold draw_board. cbn [fst selected_square legal_moves].
  rewrite in_app_iff, in_map_iff. split.
  - intros [H | (m & Hm & Hin)]; [now apply grid_has_no_highlight in H|].
    injection Hm as <-. apply filter_In in Hin as [Hin Hfrom].
    apply list_elem_of_In, elem_of_elements, elem_of_list_to_set,
      list_elem_of_filter in Hin as [_ Hin].
    exists m. apply Z.eqb_eq in Hfrom. auto.
  - intros (m & Hin & Hfrom & ->). right. exists m. split; [reflexivity|].
    apply filter_In. split; [|now apply Z.eqb_eq].
    apply list_elem_of_In, elem_of_elements, elem_of_list_to_set,
      list_elem_of_filter. auto.
Qed.

(** [draw_board] paints every square of the board where a click on it is
    looked for: a 60x60 rectangle at [square_to_pos], light when file plus
    rank is odd and dark when it is even (a1 is dark). *)
Theorem draw_board_paints_every_square
    (g : ChessGame Board) (sq : chess.Square) :
  0 <= sq <= 63 ->
  In (Rect (if Z.odd (chess.square_file sq + chess.square_rank sq)
            then WHITE else BROWN)
           (fst (square_to_pos sq)) (snd (square_to_pos sq))
           SQUARE_SIZE SQUARE_SIZE)
     (draw_board g).
Proof.
  intros Hsq. unfold draw_board. apply in_app_iff. left.
  assert (Hn : sq = Z.of_nat (Z.to_nat sq)) by lia.
  assert (Hlt : (Z.to_nat sq < 64)%nat) by lia.
  rewrite Hn. generalize dependent (Z.to_nat sq). clear Hsq. intros n _ Hlt.
  apply list_elem_of_In.
  do 64 (destruct n as [|n];
         [apply (bool_decide_unpack _); vm_compute; exact I|]).
  lia.
Qed.

End Drawing.

(** ** The file functions on an example disk *)

Lemma stocked_world_is_a_download :
  download_chess_pieces AssetsExample.env EmptyString AssetsExample.empty_world
  = (None, AssetsExample.stocked_world).
Proof. vm_compute. reflexivity. Qed.

Lemma download_never_overwrites_pawn :
  files (disk (snd (download_chess_pieces AssetsExample.env EmptyString
                      AssetsExample.stocked_world)))
    !! "assets/white_pawn.png"
  = Some "<svg https://lichess1.org/assets/piece/cburnett/P.svg>".
Proof.
  apply (download_never_overwrites AssetsExample.env EmptyString
           AssetsExample.stocked_world "assets/white_pawn.png").
  vm_compute. reflexivity.
Defined.

Lemma download_skips_existing_files_stocked :
  download_chess_pieces AssetsExample.env EmptyString
    AssetsExample.stocked_world
  = (None, AssetsExample.stocked_world).
Proof.
  apply (download_skips_existing_files AssetsExample.env EmptyString
           AssetsExample.stocked_world).
  - vm_compute. reflexivity.
  - vm_compute. reflexivity.
Defined.

Lemma download_provides_all_files_first_run :
  forallb (fun cp => path_exists (disk AssetsExample.stocked_world)
                       (asset_path EmptyString
                          (piece_filename (fst cp) (snd cp))))
          all_pieces = true.
Proof.
  exact (download_provides_all_files AssetsExample.env EmptyString
           AssetsExample.empty_world AssetsExample.stocked_world
           stocked_world_is_a_download).
Defined.

Lemma load_after_download_finds_every_file_first_run :
  fst (fst (_load_pieces AssetsExample.env EmptyString
              AssetsExample.stocked_world))
  <> Some (FileNotFoundError "Missing piece image: assets/white_pawn.png").
Proof.
  exact (load_after_download_finds_every_file AssetsExample.env EmptyString
           AssetsExample.empty_world AssetsExample.stocked_world
           "Missing piece image: assets/white_pawn.png"
           stocked_world_is_a_download).
Defined.

Lemma loaded_pieces_cover_every_symbol_black_queen :
  is_Some (snd (fst (_load_pieces AssetsExample.env EmptyString
                       AssetsExample.stocked_world))
             !! chess.symbol {| chess.piece_type := chess.QUEEN;
                                chess.color := chess.BLACK |}).
Proof.
  apply (loaded_pieces_cover_every_symbol AssetsExample.env EmptyString
           AssetsExample.stocked_world).
  vm_compute. reflexivity.
Defined.

Lemma knight_image_is_the_kings_white :
  piece_url "white" "knight" = piece_url "white" "king"
  /\ is_Some (files (disk AssetsExample.stocked_world)
                !! asset_path EmptyString (piece_filename "white" "knight"))
  /\ files (disk AssetsExample.stocked_world)
       !! asset_path EmptyString (piece_filename "white" "knight")
     = files (disk AssetsExample.stocked_world)
         !! asset_path EmptyString (piece_filename "white" "king").
Proof.
  apply (knight_image_is_the_kings AssetsExample.env AssetsExample.serve
           (fun _ _ => eq_refl) EmptyString AssetsExample.empty_world
           AssetsExample.stocked_world "white").
  - apply list_elem_of_here.
  - vm_compute. reflexivity.
  - vm_compute. reflexivity.
  - exact stocked_world_is_a_download.
Defined.

Lemma clear_games_folder_keeps_the_rest_mixed :
  let names := ["game_20250101_120000.pgn"; "notes.txt"; "old.pgn"] in
  fst (_clear_games_folder AssetsExample.env (Some names) [])
  = Some (List.filter
            (fun f => negb (endswith f ".pgn")
                      || bool_decide
                           (is_Some (remove_error AssetsExample.env f))) names)
  /\ length (snd (_clear_games_folder AssetsExample.env (Some names) []))
     = (length (@nil (Level * string))
        + length (List.filter (fun f => endswith f ".pgn") names))%nat.
Proof.
  apply (clear_games_folder_keeps_the_rest AssetsExample.env
           ["game_20250101_120000.pgn"; "notes.txt"; "old.pgn"] []).
  reflexivity.
Defined.

Lemma clear_games_folder_removes_saved_games_mixed :
  ~ In (game_file_name "20250101_120000") ["notes.txt"].
Proof.
  apply (clear_games_folder_removes_saved_games AssetsExample.env
           ["game_20250101_120000.pgn"; "notes.txt"; "old.pgn"]
           ["notes.txt"] [] "20250101_120000"); reflexivity.
Defined.

Lemma draw_board_highlights_destinations_e2 :
  let env := Transcript.world [] None in
  let e2 := Transcript.at_square "e2" in
  In (Highlight (240, 240))
     (draw_board (fst (handle_click env e2 e2 Transcript.new_session)))
  <-> exists m, m ∈ chess.legal_moves (board (fst Transcript.new_session))
                /\ chess.from_square m = 12
                /\ (240, 240) = square_to_pos (chess.to_square m).
Proof.
  apply (draw_board_highlights_destinations (Transcript.world [] None)
           (Transcript.at_square "e2") (Transcript.at_square "e2")
           Transcript.new_session 12 (240, 240)).
  - reflexivity.
  - vm_compute. reflexivity.
Defined.

Lemma draw_board_paints_every_square_a1 :
  In (Rect (if Z.odd (chess.square_file 0 + chess.square_rank 0)
            then WHITE else BROWN)
           (fst (square_to_pos 0)) (snd (square_to_pos 0))
           SQUARE_SIZE SQUARE_SIZE)
     (draw_board (fst Transcript.new_session)).
Proof.
  apply (draw_board_paints_every_square (fst Transcript.new_session) 0). lia.
Defined.
